(** * Verification of [src/core/settings.py]

    A shallow embedding of the configuration store ([Settings]), the
    credential resolver ([get_google_credentials]) and the BigQuery client
    lifecycle manager ([get_bigquery_client], [get_bigquery_client_instance],
    [ensure_dataset_exists]).

    The module talks to three collaborators that are not part of it: the file
    system, the [json] parser and the Google SDK.  They are gathered in a
    record [World] of response functions.  Every response function receives
    the history of the calls made so far, so that a collaborator may answer
    differently from one call to the next (a file appears, the network
    recovers, a client construction fails once and then succeeds). *)

From Stdlib Require Import ZArith String Ascii List.
From Stdlib Require Import Floats.SpecFloat.
From stdpp Require Import base option list gmap strings.

Local Open Scope string_scope.
Local Open Scope list_scope.

#[local] Set Warnings "-register-all".

(** ** Python values *)

(** What [json.load] can return.  A JSON object becomes a [dict] keyed by
    strings. *)
Inductive pyval : Type :=
| PNone
| PBool (b : bool)
| PInt (z : Z)
| PFloat (f : spec_float)
| PStr (s : string)
| PList (l : list pyval)
| PDict (d : gmap string pyval).

(** [type(v).__name__], as it appears in an [AttributeError] message. *)
Definition type_name (v : pyval) : string :=
  match v with
  | PNone => "NoneType"
  | PBool _ => "bool"
  | PInt _ => "int"
  | PFloat _ => "float"
  | PStr _ => "str"
  | PList _ => "list"
  | PDict _ => "dict"
  end.

(** ** Strings and paths *)

(** [str.lower] on one character.  Only the 26 ASCII capitals are remapped:
    no character outside ASCII lowers to one of the letters of ["local"], so
    for the comparison the module makes this agrees with Python's Unicode aware
    [lower]. *)
Definition lower_ascii (c : ascii) : ascii :=
  let n := nat_of_ascii c in
  if Nat.leb 65 n && Nat.leb n 90 then ascii_of_nat (n + 32) else c.

Fixpoint lower (s : string) : string :=
  match s with
  | EmptyString => EmptyString
  | String c r => String (lower_ascii c) (lower r)
  end.

(** A [pathlib.Path], by its [parts]; an absolute POSIX path starts with the
    part ["/"]. *)
Definition Path : Type := list string.

(** [p / name] *)
Definition Path_div (p : Path) (name : string) : Path := p ++ [name].

(** [p.parent]: the anchor and the empty relative path are their own
    parent. *)
Definition parent (p : Path) : Path :=
  match p with
  | [a] => if String.eqb a "/" then p else []
  | _ => removelast p
  end.

Fixpoint join_parts (l : list string) : string :=
  match l with
  | [] => ""
  | [x] => x
  | x :: r => x ++ "/" ++ join_parts r
  end.

(** [str(p)] *)
Definition Path_str (p : Path) : string :=
  match p with
  | [] => "."
  | a :: r => if String.eqb a "/" then "/" ++ join_parts r else join_parts p
  end.

(** ** Exceptions and results *)

(** Instances of [Exception], the class both handlers of
    [ensure_dataset_exists] catch and the class of every error a failing
    collaborator raises; interrupts and interpreter exits, which are not
    instances of it, are outside the model.  The module raises
    [FileNotFoundError] itself, and calling [.get] on a value that is not a
    [dict] raises [AttributeError]; everything else comes from a collaborator
    and is kept with its class name and its [str()]. *)
Inductive exn : Type :=
| FileNotFoundError (msg : string)
| AttributeError (msg : string)
| Exception (cls msg : string).

(** [str(e)], what an f-string prints for [{e}]. *)
Definition exn_str (e : exn) : string :=
  match e with
  | FileNotFoundError msg => msg
  | AttributeError msg => msg
  | Exception _ msg => msg
  end.

Inductive res (A : Type) : Type :=
| Ret (a : A)
| Raise (e : exn).
Arguments Ret {A} a.
Arguments Raise {A} e.

(** ** The configuration value *)

Record Settings : Type := mkSettings {
  API_V1 : string;
  PROJECT_DIR : Path;
  BACKEND_CORS_ORIGINS : list pyval;
  ENVIRONMENT : string;
  LOCAL_API_KEY : string;
  GOOGLE_CLOUD_PROJECT : pyval;
  BIGQUERY_DATASET : string;
  BIGQUERY_LOCATION : string;
  PROJECT_ID : pyval
}.

(** The two project-id fields are declared [str], but [__init__] assigns to
    them whatever [key_data.get] returns and pydantic does not validate
    assignments by default: they are kept as Python values. *)

Definition set_GOOGLE_CLOUD_PROJECT (v : pyval) (s : Settings) : Settings :=
  mkSettings (API_V1 s) (PROJECT_DIR s) (BACKEND_CORS_ORIGINS s) (ENVIRONMENT s)
    (LOCAL_API_KEY s) v (BIGQUERY_DATASET s) (BIGQUERY_LOCATION s) (PROJECT_ID s).

Definition set_PROJECT_ID (v : pyval) (s : Settings) : Settings :=
  mkSettings (API_V1 s) (PROJECT_DIR s) (BACKEND_CORS_ORIGINS s) (ENVIRONMENT s)
    (LOCAL_API_KEY s) (GOOGLE_CLOUD_PROJECT s) (BIGQUERY_DATASET s)
    (BIGQUERY_LOCATION s) v.

(** One source of settings values (keyword arguments, the process
    environment, the [.env] file): for each field the value it provides, if
    any, already converted to the type the field declares.  Keys that name no
    field are not represented ([extra = "ignore"]). *)
Record Source : Type := mkSource {
  src_API_V1 : option string;
  src_PROJECT_DIR : option Path;
  src_BACKEND_CORS_ORIGINS : option (list pyval);
  src_ENVIRONMENT : option string;
  src_LOCAL_API_KEY : option string;
  src_GOOGLE_CLOUD_PROJECT : option string;
  src_BIGQUERY_DATASET : option string;
  src_BIGQUERY_LOCATION : option string;
  src_PROJECT_ID : option string
}.

Definition no_source : Source :=
  mkSource None None None None None None None None None.

(** ** SDK objects *)

(** [service_account.Credentials]: opaque to the module, which only passes it
    on.  The class defines neither [__bool__] nor [__len__], so an instance is
    always truthy. *)
Record Credentials : Type := mkCredentials {
  service_account_info : pyval
}.

(** [bigquery.Client].  [client_oid] is the identity of the object: two
    clients built by two constructor calls differ in it even when built from
    the same arguments. *)
Record Client : Type := mkClient {
  client_oid : nat;
  client_project : pyval;
  client_credentials : option Credentials;
  client_location : string
}.

(** [bigquery.Dataset]: a descriptor built locally, without a call to the
    service, whose [location] and [description] are unset until assigned. *)
Record Dataset : Type := mkDataset {
  dataset_id : string;
  location : option string;
  description : option string
}.

Definition set_location (l : string) (d : Dataset) : Dataset :=
  mkDataset (dataset_id d) (Some l) (description d).

Definition set_description (t : string) (d : Dataset) : Dataset :=
  mkDataset (dataset_id d) (location d) (Some t).

(** ** Calls to the collaborators *)

(** One entry per call that leaves the module, with the answer it got. *)
Inductive event : Type :=
| EvExists (p : Path) (r : bool)
| EvRead (p : Path) (r : res string)
| EvCredentials (filename : string) (r : res Credentials)
| EvClient (project : pyval) (credentials : option Credentials)
    (loc : string) (r : res Client)
| EvGetDataset (client : Client) (id : string) (r : res Dataset)
| EvCreateDataset (client : Client) (dataset : Dataset) (timeout : Z)
    (r : res Dataset)
| EvPrint (line : string).

Record World : Type := mkWorld {
  (** [__file__] of the module *)
  module_file : Path;
  (** pydantic-settings: what the process environment and the [.env] file
      provide, and the error it raises when a provided value does not convert
      to the type of its field *)
  environ : Source;
  dotenv : Source;
  validation_error : option exn;
  (** [Path.exists] *)
  path_exists : list event -> Path -> bool;
  (** [open(p, "r")] followed by reading the whole file *)
  read_text : list event -> Path -> res string;
  (** [json.loads] *)
  json_loads : string -> res pyval;
  (** [str()] of a value that is not a [str] *)
  str_of : pyval -> string;
  (** [service_account.Credentials.from_service_account_file] *)
  from_service_account_file : list event -> string -> res Credentials;
  (** [bigquery.Client(...)]: [None] when the constructor succeeds *)
  client_ctor :
    list event -> pyval -> option Credentials -> string -> option exn;
  (** [bigquery.Dataset(id)]: the constructor parses the id and raises
      unless it names a project and a dataset; [None] when it accepts *)
  dataset_id_error : string -> option exn;
  (** [client.get_dataset] and [client.create_dataset] *)
  sdk_get_dataset : list event -> Client -> string -> res Dataset;
  sdk_create_dataset : list event -> Client -> Dataset -> Z -> res Dataset
}.

(** ** Effects: module globals, call history, exceptions *)

(** The state a computation runs in: the globals [G] of the module and the
    history of calls, oldest first. *)
Record state (G : Type) : Type := mkState {
  globals : G;
  trace : list event
}.
Arguments mkState {G} globals trace.
Arguments globals {G} s.
Arguments trace {G} s.

Definition M (G A : Type) : Type := state G -> res A * state G.

Definition ret {G A} (a : A) : M G A := fun st => (Ret a, st).

Definition raise {G A} (e : exn) : M G A := fun st => (Raise e, st).

Definition bind {G A B} (m : M G A) (k : A -> M G B) : M G B :=
  fun st =>
    match m st with
    | (Ret a, st') => k a st'
    | (Raise e, st') => (Raise e, st')
    end.

(** [try: body / except Exception as e: handler e] *)
Definition try_except {G A} (body : M G A) (handler : exn -> M G A) : M G A :=
  fun st =>
    match body st with
    | (Ret a, st') => (Ret a, st')
    | (Raise e, st') => handler e st'
    end.

Declare Scope py_scope.
Delimit Scope py_scope with py.
Notation "x <- m ;; k" := (bind m (fun x => k))
  (at level 100, m at next level, k at level 200, right associativity) : py_scope.
Notation "m ;; k" := (bind m (fun _ => k))
  (at level 100, k at level 200, right associativity) : py_scope.
Local Open Scope py_scope.

Definition log {G} (e : event) (st : state G) : state G :=
  mkState (globals st) (trace st ++ [e]).

(** A call to a collaborator: ask it, given the history, and record the call
    with its answer. *)
Definition call {G A} (ask : list event -> res A) (ev : res A -> event) :
  M G A :=
  fun st => let r := ask (trace st) in (r, log (ev r) st).

Definition get_globals {G} : M G G := fun st => (Ret (globals st), st).

Definition put_globals {G} (g : G) : M G unit :=
  fun st => (Ret tt, mkState g (trace st)).

Definition lift_res {G A} (r : res A) : M G A := fun st => (r, st).

(** The globals of the module once it is imported: [settings] (line 53) and
    [_bigquery_client] (line 92). *)
Record Globals : Type := mkGlobals {
  settings : Settings;
  _bigquery_client : option Client
}.

Section Program.

Context (w : World).

(** *** Primitive operations *)

Definition exists_ {G} (p : Path) : M G bool :=
  fun st => let r := path_exists w (trace st) p in (Ret r, log (EvExists p r) st).

Definition open_read {G} (p : Path) : M G string :=
  call (fun h => read_text w h p) (EvRead p).

Definition json_load {G} (text : string) : M G pyval :=
  lift_res (json_loads w text).

(** [key_data.get(key, default)]: only a [dict] has the method. *)
Definition dict_get {G} (v : pyval) (key : string) (default : pyval) :
  M G pyval :=
  match v with
  | PDict d => ret (match d !! key with Some x => x | None => default end)
  | _ => raise (AttributeError
                  ("'" ++ type_name v ++ "' object has no attribute 'get'"))
  end.

Definition print {G} (line : string) : M G unit :=
  fun st => (Ret tt, log (EvPrint line) st).

(** How an f-string renders [{v}]. *)
Definition format_value (v : pyval) : string :=
  match v with
  | PStr s => s
  | _ => str_of w v
  end.

Definition Credentials_from_service_account_file {G} (filename : string) :
  M G Credentials :=
  call (fun h => from_service_account_file w h filename) (EvCredentials filename).

(** [bigquery.Client(project=..., credentials=..., location=...)].  A
    successful call yields a new object, whose identity is the position of
    the call in the history. *)
Definition Client_new {G} (project : pyval) (credentials : option Credentials)
  (loc : string) : M G Client :=
  call (fun h =>
          match client_ctor w h project credentials loc with
          | None => Ret (mkClient (length h) project credentials loc)
          | Some e => Raise e
          end)
       (EvClient project credentials loc).

(** [bigquery.Dataset(id)] *)
Definition Dataset_new {G} (id : string) : M G Dataset :=
  lift_res (match dataset_id_error w id with
            | None => Ret (mkDataset id None None)
            | Some e => Raise e
            end).

Definition get_dataset {G} (client : Client) (id : string) : M G Dataset :=
  call (fun h => sdk_get_dataset w h client id) (EvGetDataset client id).

Definition create_dataset {G} (client : Client) (dataset : Dataset)
  (timeout : Z) : M G Dataset :=
  call (fun h => sdk_create_dataset w h client dataset timeout)
       (EvCreateDataset client dataset timeout).

(** *** [class Settings(BaseSettings)] *)

(** The class defaults (lines 13 to 32). *)
Definition Settings_defaults : Settings :=
  {| API_V1 := "/api/v1";
     PROJECT_DIR := parent (parent (parent (module_file w)));
     BACKEND_CORS_ORIGINS := [PStr "*"];
     ENVIRONMENT := "development";
     LOCAL_API_KEY := "default_api_key";
     GOOGLE_CLOUD_PROJECT := PStr "celestial-gecko-449316-d2";
     BIGQUERY_DATASET := "template_dataset";
     BIGQUERY_LOCATION := "US";
     PROJECT_ID := PStr "celestial-gecko-449316-d2" |}.

(** The first source that provides a value wins. *)
Definition pick {A} (kw env file : option A) (default : A) : A :=
  match kw, env, file with
  | Some v, _, _ => v
  | None, Some v, _ => v
  | None, None, Some v => v
  | None, None, None => default
  end.

Definition pick_str (kw env file : option string) (default : pyval) : pyval :=
  match kw, env, file with
  | Some v, _, _ => PStr v
  | None, Some v, _ => PStr v
  | None, None, Some v => PStr v
  | None, None, None => default
  end.

(** [BaseSettings.__init__] with the keyword arguments of the caller, the
    pydantic-settings collaborator:
    every field is taken from the keyword arguments, else from the process
    environment, else from the [.env] file, else from the class default; a
    value that does not convert raises. *)
Definition BaseSettings_init (kwargs : Source) : res Settings :=
  match validation_error w with
  | Some e => Raise e
  | None =>
      let e := environ w in
      let f := dotenv w in
      let d := Settings_defaults in
      Ret {| API_V1 := pick (src_API_V1 kwargs) (src_API_V1 e) (src_API_V1 f) (API_V1 d);
             PROJECT_DIR :=
               pick (src_PROJECT_DIR kwargs) (src_PROJECT_DIR e)
                 (src_PROJECT_DIR f) (PROJECT_DIR d);
             BACKEND_CORS_ORIGINS :=
               pick (src_BACKEND_CORS_ORIGINS kwargs) (src_BACKEND_CORS_ORIGINS e)
                 (src_BACKEND_CORS_ORIGINS f) (BACKEND_CORS_ORIGINS d);
             ENVIRONMENT :=
               pick (src_ENVIRONMENT kwargs) (src_ENVIRONMENT e)
                 (src_ENVIRONMENT f) (ENVIRONMENT d);
             LOCAL_API_KEY :=
               pick (src_LOCAL_API_KEY kwargs) (src_LOCAL_API_KEY e)
                 (src_LOCAL_API_KEY f) (LOCAL_API_KEY d);
             GOOGLE_CLOUD_PROJECT :=
               pick_str (src_GOOGLE_CLOUD_PROJECT kwargs) (src_GOOGLE_CLOUD_PROJECT e)
                 (src_GOOGLE_CLOUD_PROJECT f) (GOOGLE_CLOUD_PROJECT d);
             BIGQUERY_DATASET :=
               pick (src_BIGQUERY_DATASET kwargs) (src_BIGQUERY_DATASET e)
                 (src_BIGQUERY_DATASET f) (BIGQUERY_DATASET d);
             BIGQUERY_LOCATION :=
               pick (src_BIGQUERY_LOCATION kwargs) (src_BIGQUERY_LOCATION e)
                 (src_BIGQUERY_LOCATION f) (BIGQUERY_LOCATION d);
             PROJECT_ID :=
               pick_str (src_PROJECT_ID kwargs) (src_PROJECT_ID e)
                 (src_PROJECT_ID f) (PROJECT_ID d) |}
  end.

(** [self.ENVIRONMENT.lower() == "local"] *)
Definition is_local (s : Settings) : bool :=
  String.eqb (lower (ENVIRONMENT s)) "local".

(** [self.PROJECT_DIR / "key.json"] *)
Definition key_path (s : Settings) : Path := Path_div (PROJECT_DIR s) "key.json".

(** [Settings.__init__] (lines 34 to 45).  The value returned is [self]. *)
Definition Settings_init {G} (kwargs : Source) : M G Settings :=
  self <- lift_res (BaseSettings_init kwargs) ;;
  if is_local self then
    found <- exists_ (key_path self) ;;
    if found then
      text <- open_read (key_path self) ;;
      key_data <- json_load text ;;
      v1 <- dict_get key_data "project_id" (GOOGLE_CLOUD_PROJECT self) ;;
      let self1 := set_GOOGLE_CLOUD_PROJECT v1 self in
      v2 <- dict_get key_data "project_id" (PROJECT_ID self1) ;;
      ret (set_PROJECT_ID v2 self1)
    else ret self
  else ret self.

(** Importing the module: [settings = Settings()] on line 53 and
    [_bigquery_client = None] on line 92.  An exception of [Settings()]
    aborts the import and leaves no globals. *)
Definition import_module : M unit Globals :=
  s <- Settings_init no_source ;;
  ret {| settings := s; _bigquery_client := None |}.

(** *** The functions of the module *)

Definition read_settings : M Globals Settings :=
  g <- get_globals ;; ret (settings g).

(** [get_google_credentials] (lines 57 to 68); [None] is the Python [None]
    that stands for the default credentials. *)
Definition get_google_credentials : M Globals (option Credentials) :=
  s <- read_settings ;;
  if is_local s then
    found <- exists_ (key_path s) ;;
    if found then
      c <- Credentials_from_service_account_file (Path_str (key_path s)) ;;
      ret (Some c)
    else raise (FileNotFoundError "key.json not found for local environment")
  else ret None.

(** [get_bigquery_client] (lines 72 to 88) *)
Definition get_bigquery_client : M Globals Client :=
  credentials <- get_google_credentials ;;
  s <- read_settings ;;
  match credentials with
  | Some c => Client_new (GOOGLE_CLOUD_PROJECT s) (Some c) (BIGQUERY_LOCATION s)
  | None => Client_new (GOOGLE_CLOUD_PROJECT s) None (BIGQUERY_LOCATION s)
  end.

(** [get_bigquery_client_instance] (lines 95 to 100).  The value returned is
    the content of the slot: the client found there, or the one just
    stored. *)
Definition get_bigquery_client_instance : M Globals Client :=
  g <- get_globals ;;
  match _bigquery_client g with
  | None =>
      c <- get_bigquery_client ;;
      g' <- get_globals ;;
      put_globals {| settings := settings g'; _bigquery_client := Some c |} ;;
      ret c
  | Some c => ret c
  end.

(** The f-string on line 108. *)
Definition qualified_dataset_id (s : Settings) : string :=
  format_value (GOOGLE_CLOUD_PROJECT s) ++ "." ++ BIGQUERY_DATASET s.

(** The f-strings on lines 119 and 121. *)
Definition created_line (id : string) : string := "Created dataset " ++ id.

Definition warning_line (e : exn) : string :=
  "Warning: Could not initialize BigQuery: " ++ exn_str e.

(** [ensure_dataset_exists] (lines 104 to 122) *)
Definition ensure_dataset_exists : M Globals unit :=
  try_except
    (client <- get_bigquery_client_instance ;;
     s <- read_settings ;;
     let id := qualified_dataset_id s in
     try_except
       (get_dataset client id ;; ret tt)
       (fun _ =>
          dataset <- Dataset_new id ;;
          let dataset := set_location (BIGQUERY_LOCATION s) dataset in
          let dataset := set_description "Template microservice dataset" dataset in
          create_dataset client dataset 30 ;;
          print (created_line id)))
    (fun e => print (warning_line e)).

End Program.

(** ** Reading the call history *)

(** The clients that constructor calls produced. *)
Definition constructed (t : list event) : list Client :=
  omap (fun e => match e with EvClient _ _ _ (Ret c) => Some c | _ => None end) t.

(** The [create_dataset] calls issued: client, descriptor and timeout. *)
Definition creation_calls (t : list event) : list (Client * Dataset * Z) :=
  omap (fun e => match e with
                 | EvCreateDataset c d z _ => Some (c, d, z)
                 | _ => None
                 end) t.

(** The [get_dataset] calls issued: client and dataset id. *)
Definition fetch_calls (t : list event) : list (Client * string) :=
  omap (fun e => match e with EvGetDataset c id _ => Some (c, id) | _ => None end) t.

(** The lines written to standard output. *)
Definition printed (t : list event) : list string :=
  omap (fun e => match e with EvPrint line => Some line | _ => None end) t.

(** Calls that construct no client, touch no dataset and print nothing. *)
Definition silent (new : list event) : Prop :=
  constructed new = [] /\ creation_calls new = [] /\
  fetch_calls new = [] /\ printed new = [].


(** The descriptor [ensure_dataset_exists] passes to [create_dataset]. *)
Definition new_dataset (w : World) (s : Settings) : Dataset :=
  {| dataset_id := qualified_dataset_id w s;
     location := Some (BIGQUERY_LOCATION s);
     description := Some "Template microservice dataset" |}.

(** ** Process executions *)

(** The operations of the lifecycle manager, and the credential resolver. *)
Inductive op : Type :=
| OpCredentials
| OpInstance
| OpEnsure.

Definition run_op (w : World) (o : op) (st : state Globals) : state Globals :=
  match o with
  | OpCredentials => snd (get_google_credentials w st)
  | OpInstance => snd (get_bigquery_client_instance w st)
  | OpEnsure => snd (ensure_dataset_exists w st)
  end.

(** The calls are made one after the other, whether they return or raise. *)
Definition run (w : World) (ops : list op) (st : state Globals) : state Globals :=
  fold_left (fun s o => run_op w o s) ops st.

(** ** Sample worlds *)

Definition sample_file : Path := ["/"; "srv"; "app"; "src"; "core"; "settings.py"].

Definition env_only (name : string) : Source :=
  mkSource None None None (Some name) None None None None None.

(** The number of dots in an id. *)
Fixpoint count_dots (s : string) : nat :=
  match s with
  | EmptyString => 0
  | String c r => (if Ascii.eqb c "."%char then 1 else 0) + count_dots r
  end.

Definition too_many_parts : exn :=
  Exception "ValueError" "Too many parts in dataset_id".

Definition missing_project : exn :=
  Exception "ValueError" "dataset_id must be a fully-qualified dataset ID".

(** A sample of the SDK's check of a dataset id: exactly two parts separated
    by a dot. *)
Definition sample_dataset_id_error (id : string) : option exn :=
  match count_dots id with
  | 0 => Some missing_project
  | 1 => None
  | _ => Some too_many_parts
  end.

(** A world with a fixed answer for the key file and for the parser, and SDK
    answers given by the caller. *)
Definition sample_world (env : Source) (key_present : bool) (parsed : res pyval)
  (ctor : list event -> option exn) (fetch create : res Dataset) : World :=
  {| module_file := sample_file;
     environ := env;
     dotenv := no_source;
     validation_error := None;
     path_exists := fun _ _ => key_present;
     read_text := fun _ _ => Ret "{...}";
     json_loads := fun _ => parsed;
     str_of := fun _ => "<object>";
     from_service_account_file := fun _ _ => Ret (mkCredentials PNone);
     client_ctor := fun h _ _ _ => ctor h;
     dataset_id_error := sample_dataset_id_error;
     sdk_get_dataset := fun _ _ _ => fetch;
     sdk_create_dataset := fun _ _ _ _ => create |}.

Definition start {G} (g : G) : state G := mkState g [].

(** The settings the sources and the defaults give in [w], and the globals
    right after the import when it succeeds. *)
Definition base_of (w : World) : Settings :=
  match BaseSettings_init w no_source with
  | Ret s => s
  | Raise _ => Settings_defaults w
  end.

Definition globals_of (w : World) : Globals :=
  match import_module w (start tt) with
  | (Ret g, _) => g
  | (Raise _, _) => mkGlobals (Settings_defaults w) None
  end.

(** The client a construction with the default settings yields. *)
Definition sample_client (oid : nat) : Client :=
  mkClient oid (PStr "celestial-gecko-449316-d2") None "US".

Definition not_found : exn := Exception "NotFound" "404 Not found: Dataset".

Definition unreachable : exn := Exception "TransportError" "connection refused".

Definition some_dataset : Dataset := mkDataset "p.d" None None.

(** Nothing overridden, no key file, the service answers every call. *)
Definition dev_world : World :=
  sample_world no_source false (Ret PNone) (fun _ => None)
    (Ret some_dataset) (Ret some_dataset).

(** The dataset is missing: the fetch raises and the creation succeeds. *)
Definition missing_dataset_world : World :=
  sample_world no_source false (Ret PNone) (fun _ => None)
    (Raise not_found) (Ret some_dataset).

(** The service refuses both the fetch and the creation. *)
Definition quota_exceeded : exn := Exception "Forbidden" "403 Quota exceeded".

Definition broken_service_world : World :=
  sample_world no_source false (Ret PNone) (fun _ => None)
    (Raise not_found) (Raise quota_exceeded).

(** The very first call of the process, a client construction, fails; later
    constructions succeed. *)
Definition flaky_world : World :=
  sample_world no_source false (Ret PNone)
    (fun h => match h with [] => Some unreachable | _ => None end)
    (Raise not_found) (Ret some_dataset).

(** Local environment with a key file whose [project_id] is ["X"]. *)
Definition local_key_world : World :=
  sample_world (env_only "Local") true
    (Ret (PDict {[ "project_id" := PStr "X" ]})) (fun _ => None)
    (Ret some_dataset) (Ret some_dataset).

(** Local environment without a key file. *)
Definition local_nokey_world : World :=
  sample_world (env_only "LOCAL") false (Ret PNone) (fun _ => None)
    (Ret some_dataset) (Ret some_dataset).

(** Local environment with a key file that does not parse. *)
Definition json_error : exn :=
  Exception "JSONDecodeError" "Expecting value: line 1 column 1 (char 0)".

Definition local_malformed_world : World :=
  sample_world (env_only "local") true (Raise json_error) (fun _ => None)
    (Ret some_dataset) (Ret some_dataset).

(** The process environment sets [GOOGLE_CLOUD_PROJECT] and nothing else. *)
Definition override_world : World :=
  sample_world
    (mkSource None None None None None (Some "other-project") None None None)
    false (Ret PNone) (fun _ => None) (Ret some_dataset) (Ret some_dataset).

(** Local environment with a key file that holds a JSON array. *)
Definition local_array_world : World :=
  sample_world (env_only "local") true (Ret (PList [PStr "project_id"]))
    (fun _ => None) (Ret some_dataset) (Ret some_dataset).

Definition permission_denied : exn :=
  Exception "PermissionError" "[Errno 13] Permission denied".

(** Local environment with a key file that exists and cannot be opened. *)
Definition unreadable_key_world : World :=
  {| module_file := sample_file;
     environ := env_only "local";
     dotenv := no_source;
     validation_error := None;
     path_exists := fun _ _ => true;
     read_text := fun _ _ => Raise permission_denied;
     json_loads := fun _ => Ret PNone;
     str_of := fun _ => "<object>";
     from_service_account_file := fun _ _ => Ret (mkCredentials PNone);
     client_ctor := fun _ _ _ _ => None;
     dataset_id_error := sample_dataset_id_error;
     sdk_get_dataset := fun _ _ _ => Ret some_dataset;
     sdk_create_dataset := fun _ _ _ _ => Ret some_dataset |}.

Definition bad_key : exn :=
  Exception "ValueError" "Service account info was not in the expected format".

(** Local environment with a key file the SDK refuses to load. *)
Definition bad_credentials_world : World :=
  {| module_file := sample_file;
     environ := env_only "local";
     dotenv := no_source;
     validation_error := None;
     path_exists := fun _ _ => true;
     read_text := fun _ _ => Ret "{...}";
     json_loads := fun _ => Ret (PDict {[ "project_id" := PStr "X" ]});
     str_of := fun _ => "<object>";
     from_service_account_file := fun _ _ => Raise bad_key;
     client_ctor := fun _ _ _ _ => None;
     dataset_id_error := sample_dataset_id_error;
     sdk_get_dataset := fun _ _ _ => Ret some_dataset;
     sdk_create_dataset := fun _ _ _ _ => Ret some_dataset |}.

(** The dataset name holds a dot, so the qualified id has three parts; the
    fetch rejects it, and so does the descriptor constructor. *)
Definition dotted_dataset_world : World :=
  sample_world
    (mkSource None None None None None None (Some "analytics.v2") None None)
    false (Ret PNone) (fun _ => None) (Raise too_many_parts) (Ret some_dataset).

(** ** Overlapping calls *)

(** A call to [get_bigquery_client_instance] in progress, by what it is about
    to do: test the slot (line 98), run [get_bigquery_client()] (right-hand
    side of line 99), assign the slot (line 99), read the slot and return
    (line 100); or finished.  The module takes no lock, so a thread can be
    preempted between any two of these steps. *)
Inductive caller : Type :=
| AtTest
| AtConstruct
| AtStore (c : Client)
| AtReturn
| Returned (value : option Client)
| Raised (e : exn).

Definition caller_step (w : World) (p : caller) (st : state Globals) :
  caller * state Globals :=
  match p with
  | AtTest =>
      match _bigquery_client (globals st) with
      | None => (AtConstruct, st)
      | Some _ => (AtReturn, st)
      end
  | AtConstruct =>
      match get_bigquery_client w st with
      | (Ret c, st1) => (AtStore c, st1)
      | (Raise e, st1) => (Raised e, st1)
      end
  | AtStore c =>
      (AtReturn, mkState (mkGlobals (settings (globals st)) (Some c)) (trace st))
  | AtReturn => (Returned (_bigquery_client (globals st)), st)
  | Returned _ => (p, st)
  | Raised _ => (p, st)
  end.

(** The callers of a process under a schedule, which names step by step the
    caller that runs next. *)
Fixpoint interleave (w : World) (schedule : list nat) (callers : list caller)
  (st : state Globals) : list caller * state Globals :=
  match schedule with
  | [] => (callers, st)
  | i :: rest =>
      match callers !! i with
      | Some p =>
          let stepped := caller_step w p st in
          interleave w rest (<[i := fst stepped]> callers) (snd stepped)
      | None => interleave w rest callers st
      end
  end.

(** A client built for the settings [s]: their project and location, and
    explicit credentials exactly in the local environment. *)
Definition client_for (s : Settings) (c : Client) : Prop :=
  client_project c = GOOGLE_CLOUD_PROJECT s /\
  client_location c = BIGQUERY_LOCATION s /\
  (client_credentials c = None <-> lower (ENVIRONMENT s) <> "local").

(** The slot, when filled, holds a client built for the settings. *)
Definition slot_inv (st : state Globals) : Prop :=
  forall c : Client,
    _bigquery_client (globals st) = Some c -> client_for (settings (globals st)) c.

(** ** Basic facts *)

Lemma is_local_true (s : Settings) :
  is_local s = true <-> lower (ENVIRONMENT s) = "local".
Proof. unfold is_local. apply String.eqb_eq. Qed.

Lemma is_local_false (s : Settings) :
  is_local s = false <-> lower (ENVIRONMENT s) <> "local".
Proof. unfold is_local. apply String.eqb_neq. Qed.

(** Every spelling of the name that differs from ["local"] by case only is
    the local environment. *)
Example is_local_mixed_case :
  map (fun n => lower n =? "local")
      ["local"; "LOCAL"; "Local"; "lOcAl"; "development"; "locale"; ""]
  = [true; true; true; true; false; false; false].
Proof. reflexivity. Qed.

Ltac unfold_m :=
  unfold bind, ret, raise, try_except, lift_res, call, get_globals,
    put_globals, read_settings, exists_, open_read, json_load, print.

(** The steps of [Settings.__init__] up to the parsed key file. *)
Lemma Settings_init_key_data (w : World) (kwargs : Source) {G} (st : state G)
  (s0 : Settings) (text : string) :
  BaseSettings_init w kwargs = Ret s0 ->
  is_local s0 = true ->
  path_exists w (trace st) (key_path s0) = true ->
  read_text w (trace (log (EvExists (key_path s0) true) st)) (key_path s0)
  = Ret text ->
  Settings_init w kwargs st =
  (key_data <- json_load w text ;;
   v1 <- dict_get key_data "project_id" (GOOGLE_CLOUD_PROJECT s0) ;;
   let self1 := set_GOOGLE_CLOUD_PROJECT v1 s0 in
   v2 <- dict_get key_data "project_id" (PROJECT_ID self1) ;;
   ret (set_PROJECT_ID v2 self1))
    (log (EvRead (key_path s0) (Ret text)) (log (EvExists (key_path s0) true) st)).
Proof.
  intros Hbase Hloc Hex Hread.
  unfold Settings_init. unfold_m.
  rewrite Hbase, Hloc, Hex. unfold call. cbn zeta. rewrite Hread. reflexivity.
Qed.

(** ** The configuration store *)

(** C9: in the local environment, with no file at [key.json], construction
    returns normally and the settings are those the sources and the defaults
    gave, project ids included; the only call made is the existence test. *)
Theorem Settings_init_local_without_key_file (w : World) (kwargs : Source)
  (G : Type) (st : state G) (s0 : Settings) :
  BaseSettings_init w kwargs = Ret s0 ->
  lower (ENVIRONMENT s0) = "local" ->
  path_exists w (trace st) (key_path s0) = false ->
  Settings_init w kwargs st = (Ret s0, log (EvExists (key_path s0) false) st).
Proof.
  intros Hbase Hloc Hex. apply is_local_true in Hloc.
  unfold Settings_init. unfold_m.
  rewrite Hbase, Hloc, Hex. reflexivity.
Qed.

(** C7: in the local environment, when [key.json] exists and parses to an
    object, construction succeeds; if the object has [project_id] equal to the
    string [X], both project-id fields end up equal to [X]; if it has no
    [project_id], both keep the value they had. *)
Theorem Settings_init_local_key_file (w : World) (kwargs : Source)
  (G : Type) (st : state G) (s0 : Settings) (text : string)
  (d : gmap string pyval) :
  BaseSettings_init w kwargs = Ret s0 ->
  lower (ENVIRONMENT s0) = "local" ->
  path_exists w (trace st) (key_path s0) = true ->
  read_text w (trace (log (EvExists (key_path s0) true) st)) (key_path s0)
  = Ret text ->
  json_loads w text = Ret (PDict d) ->
  exists (s : Settings) (st' : state G),
    Settings_init w kwargs st = (Ret s, st') /\
    (forall X : string,
        d !! "project_id" = Some (PStr X) ->
        GOOGLE_CLOUD_PROJECT s = PStr X /\ PROJECT_ID s = PStr X) /\
    (d !! "project_id" = None ->
     GOOGLE_CLOUD_PROJECT s = GOOGLE_CLOUD_PROJECT s0 /\
     PROJECT_ID s = PROJECT_ID s0).
Proof.
  intros Hbase Hloc Hex Hread Hjson. apply is_local_true in Hloc.
  rewrite (Settings_init_key_data w kwargs st s0 text Hbase Hloc Hex Hread).
  unfold_m. rewrite Hjson. cbn.
  eexists _, _. split; [reflexivity|]. cbn.
  split.
  - intros X HX. rewrite HX. auto.
  - intros HN. rewrite HN. auto.
Qed.

(** C8: in the local environment, when [key.json] exists and its text does
    not parse, construction raises the error of the parser, and so does the
    import of the module, which therefore binds no [settings]. *)
Theorem Settings_init_malformed_key_file (w : World) (kwargs : Source)
  (st : state unit) (s0 : Settings) (text : string) (e : exn) :
  BaseSettings_init w kwargs = Ret s0 ->
  lower (ENVIRONMENT s0) = "local" ->
  path_exists w (trace st) (key_path s0) = true ->
  read_text w (trace (log (EvExists (key_path s0) true) st)) (key_path s0)
  = Ret text ->
  json_loads w text = Raise e ->
  fst (Settings_init w kwargs st) = Raise e /\
  (kwargs = no_source -> fst (import_module w st) = Raise e).
Proof.
  intros Hbase Hloc Hex Hread Hjson. apply is_local_true in Hloc.
  assert (HS : fst (Settings_init w kwargs st) = Raise e).
  { rewrite (Settings_init_key_data w kwargs st s0 text Hbase Hloc Hex Hread).
    unfold_m. rewrite Hjson. reflexivity. }
  split; [exact HS|].
  intros ->. unfold import_module, bind.
  destruct (Settings_init w no_source st) as [[s|e'] st']; cbn in HS.
  - discriminate.
  - cbn. congruence.
Qed.

(** C5: when the environment name does not lower to ["local"], construction
    returns the populated settings without any call (the state, history
    included, is unchanged), and [get_google_credentials] returns [None], the
    sign for default credentials, again without any call. *)
Theorem nonlocal_never_consults_key_file (w : World) (name : string) :
  lower name <> "local" ->
  (forall (G : Type) (kwargs : Source) (s0 : Settings) (st : state G),
      BaseSettings_init w kwargs = Ret s0 ->
      ENVIRONMENT s0 = name ->
      Settings_init w kwargs st = (Ret s0, st)) /\
  (forall st : state Globals,
      ENVIRONMENT (settings (globals st)) = name ->
      get_google_credentials w st = (Ret None, st)).
Proof.
  intros Hname. split.
  - intros G kwargs s0 st Hbase Henv.
    assert (Hloc : is_local s0 = false) by (apply is_local_false; congruence).
    unfold Settings_init. unfold_m. rewrite Hbase, Hloc. reflexivity.
  - intros st Henv.
    assert (Hloc : is_local (settings (globals st)) = false)
      by (apply is_local_false; congruence).
    unfold get_google_credentials. unfold_m. cbn. rewrite Hloc. reflexivity.
Qed.

(** ** The credential resolver *)

(** C6: in the local environment, with no file at [key.json],
    [get_google_credentials] raises [FileNotFoundError]; it does not return
    [None]. *)
Theorem get_google_credentials_local_without_key_file (w : World)
  (st : state Globals) :
  lower (ENVIRONMENT (settings (globals st))) = "local" ->
  path_exists w (trace st) (key_path (settings (globals st))) = false ->
  get_google_credentials w st =
  (Raise (FileNotFoundError "key.json not found for local environment"),
   log (EvExists (key_path (settings (globals st))) false) st).
Proof.
  intros Hloc Hex. apply is_local_true in Hloc.
  unfold get_google_credentials. unfold_m. cbn. rewrite Hloc, Hex. reflexivity.
Qed.

(** ** Step lemmas for the client lifecycle *)

Ltac ext_trace :=
  first [ rewrite <- !app_assoc; reflexivity
        | reflexivity
        | symmetry; apply app_nil_r ].

Ltac silent_tac := repeat split; reflexivity.


Lemma get_google_credentials_trace (w : World) (st : state Globals) :
  exists new : list event,
    snd (get_google_credentials w st) = mkState (globals st) (trace st ++ new) /\
    silent new.
Proof.
  destruct st as [g t].
  unfold get_google_credentials, Credentials_from_service_account_file.
  unfold_m. cbn.
  destruct (is_local (settings g)); cbn;
    [ destruct (path_exists w t (key_path (settings g))); cbn;
      [ unfold call; cbn;
        destruct (from_service_account_file w _ _) as [c|e]; cbn | ] | ];
    unfold log; cbn;
    (eexists; split; [ f_equal; ext_trace | silent_tac ]).
Qed.

(** [get_bigquery_client] leaves the globals alone and constructs exactly the
    client it returns. *)
Lemma get_bigquery_client_trace (w : World) (st : state Globals) :
  exists new : list event,
    snd (get_bigquery_client w st) = mkState (globals st) (trace st ++ new) /\
    creation_calls new = [] /\ fetch_calls new = [] /\ printed new = [] /\
    constructed new =
    match fst (get_bigquery_client w st) with
    | Ret c => [c]
    | Raise _ => []
    end.
Proof.
  destruct (get_google_credentials_trace w st) as (new & Hst & Hc & Hd & Hf & Hp).
  unfold get_bigquery_client, bind.
  destruct (get_google_credentials w st) as [[cr|e] st1]; cbn in Hst; subst st1.
  - unfold Client_new, call, read_settings, get_globals, bind, ret, log; cbn.
    destruct cr as [c|]; cbn;
      destruct (client_ctor w _ _ _ _) as [e|]; cbn;
      (eexists; split; [ f_equal; ext_trace | ]);
      unfold creation_calls, fetch_calls, printed, constructed in *;
      rewrite !omap_app, ?Hc, ?Hd, ?Hf, ?Hp; cbn; auto.
  - cbn. exists new. auto.
Qed.

Lemma get_bigquery_client_instance_eq (w : World) (st : state Globals) :
  get_bigquery_client_instance w st =
  match _bigquery_client (globals st) with
  | Some c => (Ret c, st)
  | None =>
      match get_bigquery_client w st with
      | (Ret c, st1) =>
          (Ret c, mkState (mkGlobals (settings (globals st1)) (Some c)) (trace st1))
      | (Raise e, st1) => (Raise e, st1)
      end
  end.
Proof.
  unfold get_bigquery_client_instance. unfold_m.
  destruct (_bigquery_client (globals st)); [reflexivity|].
  destruct (get_bigquery_client w st) as [[c|e] st1]; reflexivity.
Qed.

Lemma ensure_dataset_exists_eq (w : World) (st : state Globals) :
  ensure_dataset_exists w st =
  match get_bigquery_client_instance w st with
  | (Raise e, st1) => (Ret tt, log (EvPrint (warning_line e)) st1)
  | (Ret c, st1) =>
      let s := settings (globals st1) in
      let id := qualified_dataset_id w s in
      match sdk_get_dataset w (trace st1) c id with
      | Ret d => (Ret tt, log (EvGetDataset c id (Ret d)) st1)
      | Raise e1 =>
          let st2 := log (EvGetDataset c id (Raise e1)) st1 in
          match dataset_id_error w id with
          | Some e => (Ret tt, log (EvPrint (warning_line e)) st2)
          | None =>
              let r := sdk_create_dataset w (trace st2) c (new_dataset w s) 30 in
              let st3 := log (EvCreateDataset c (new_dataset w s) 30 r) st2 in
              match r with
              | Ret _ => (Ret tt, log (EvPrint (created_line id)) st3)
              | Raise e => (Ret tt, log (EvPrint (warning_line e)) st3)
              end
          end
      end
  end.
Proof.
  unfold ensure_dataset_exists, try_except, bind at 1.
  destruct (get_bigquery_client_instance w st) as [[c|e] st1]; [|reflexivity].
  unfold get_dataset, create_dataset, Dataset_new, new_dataset. unfold_m. cbn.
  destruct (sdk_get_dataset w (trace st1) c _) as [d|e1]; [reflexivity|].
  cbn. destruct (dataset_id_error w _) as [e0|]; [reflexivity|].
  cbn. destruct (sdk_create_dataset w _ c _ 30) as [d|e]; reflexivity.
Qed.

(** What a call to [get_bigquery_client_instance] does to the state: the
    settings stay, no dataset call and no output are made, and a client is
    constructed exactly when the slot was empty and the call returns. *)
Lemma get_bigquery_client_instance_trace (w : World) (st : state Globals) :
  exists new : list event,
    trace (snd (get_bigquery_client_instance w st)) = trace st ++ new /\
    settings (globals (snd (get_bigquery_client_instance w st)))
    = settings (globals st) /\
    creation_calls new = [] /\ fetch_calls new = [] /\ printed new = [] /\
    match fst (get_bigquery_client_instance w st), _bigquery_client (globals st) with
    | Ret c, Some c0 =>
        c = c0 /\ new = [] /\
        _bigquery_client (globals (snd (get_bigquery_client_instance w st))) = Some c
    | Ret c, None =>
        constructed new = [c] /\
        _bigquery_client (globals (snd (get_bigquery_client_instance w st))) = Some c
    | Raise _, Some _ => False
    | Raise _, None =>
        constructed new = [] /\
        _bigquery_client (globals (snd (get_bigquery_client_instance w st))) = None
    end.
Proof.
  rewrite get_bigquery_client_instance_eq.
  destruct (_bigquery_client (globals st)) as [c0|] eqn:Hslot; cbn.
  - exists []. rewrite app_nil_r. auto 10.
  - destruct (get_bigquery_client_trace w st) as (new & Hst & Hd & Hf & Hp & Hc).
    destruct (get_bigquery_client w st) as [[c|e] st1]; cbn in *; subst st1; cbn;
      exists new; rewrite ?Hslot; auto 10.
Qed.


(** [ensure_dataset_exists] is a call to [get_bigquery_client_instance]
    followed by dataset calls and output, and it returns. *)
Lemma ensure_dataset_exists_after_instance (w : World) (st : state Globals) :
  exists tail : list event,
    ensure_dataset_exists w st =
    (Ret tt,
     mkState (globals (snd (get_bigquery_client_instance w st)))
             (trace (snd (get_bigquery_client_instance w st)) ++ tail)) /\
    constructed tail = [].
Proof.
  rewrite ensure_dataset_exists_eq.
  destruct (get_bigquery_client_instance w st) as [[c|e] st1]; cbn.
  - destruct (sdk_get_dataset w (trace st1) c _) as [d|e1]; cbn.
    + eexists. split; [reflexivity|reflexivity].
    + destruct (dataset_id_error w _) as [e0|];
        [|destruct (sdk_create_dataset w _ c _ 30) as [d|e]]; cbn;
        unfold log; cbn; rewrite <- !app_assoc;
        (eexists; split; [reflexivity|reflexivity]).
  - eexists. split; [reflexivity|reflexivity].
Qed.



(** Once the slot holds a client, a call returns it and changes nothing. *)
Lemma get_bigquery_client_instance_cached (w : World) (st : state Globals)
  (c : Client) :
  _bigquery_client (globals st) = Some c ->
  get_bigquery_client_instance w st = (Ret c, st).
Proof. intros H. rewrite get_bigquery_client_instance_eq, H. reflexivity. Qed.

Lemma slot_stable_run_op (w : World) (o : op) (st : state Globals) (c : Client) :
  _bigquery_client (globals st) = Some c ->
  _bigquery_client (globals (run_op w o st)) = Some c.
Proof.
  intros H. destruct o; unfold run_op.
  - destruct (get_google_credentials_trace w st) as (new & -> & _). exact H.
  - rewrite (get_bigquery_client_instance_cached w st c H). exact H.
  - destruct (ensure_dataset_exists_after_instance w st) as (tail & -> & _).
    rewrite (get_bigquery_client_instance_cached w st c H). exact H.
Qed.

Lemma slot_stable_run (w : World) (ops : list op) (st : state Globals) (c : Client) :
  _bigquery_client (globals st) = Some c ->
  _bigquery_client (globals (run w ops st)) = Some c.
Proof.
  revert st. induction ops as [|o ops IH]; intros st H; cbn.
  - exact H.
  - apply IH, slot_stable_run_op, H.
Qed.

(** A successful call leaves the client it returns in the slot. *)
Lemma get_bigquery_client_instance_fills_slot (w : World) (st st1 : state Globals)
  (c : Client) :
  get_bigquery_client_instance w st = (Ret c, st1) ->
  _bigquery_client (globals st1) = Some c.
Proof.
  intros H.
  destruct (get_bigquery_client_instance_trace w st) as (new & _ & _ & _ & _ & _ & Hcase).
  rewrite H in Hcase. cbn in Hcase.
  destruct (_bigquery_client (globals st)); tauto.
Qed.


(** Two constructions never yield the same object: the identity of a client
    lies between the lengths of the history before and after the call that
    built it. *)
Lemma get_bigquery_client_fresh (w : World) (st st1 : state Globals) (c : Client) :
  get_bigquery_client w st = (Ret c, st1) ->
  length (trace st) <= client_oid c < length (trace st1).
Proof.
  destruct (get_google_credentials_trace w st) as (new & Hst & _).
  unfold get_bigquery_client, bind.
  destruct (get_google_credentials w st) as [[cr|e] st0]; cbn in Hst; subst st0;
    [|discriminate].
  unfold Client_new, call, read_settings, get_globals, bind, ret, log; cbn.
  destruct cr as [k|]; destruct (client_ctor w _ _ _ _); try discriminate;
    intros [= <- <-]; cbn; rewrite !length_app; cbn; lia.
Qed.

(** ** The client lifecycle manager *)

(** A caller that is not preempted does what [get_bigquery_client_instance]
    does: the steps of [caller_step] are the lines of the function. *)
Lemma caller_alone (w : World) (st : state Globals) :
  interleave w [0; 0; 0; 0] [AtTest] st =
  match get_bigquery_client_instance w st with
  | (Ret c, st1) => ([Returned (Some c)], st1)
  | (Raise e, st1) => ([Raised e], st1)
  end.
Proof.
  rewrite get_bigquery_client_instance_eq. cbn.
  destruct (_bigquery_client (globals st)) as [c0|] eqn:Hslot; cbn.
  - rewrite Hslot. reflexivity.
  - destruct (get_bigquery_client w st) as [[c|e] st1]; reflexivity.
Qed.



(** The same two callers, run one after the other, share one client. *)
Example callers_in_turn_share_one_client :
  fst (interleave dev_world [0; 0; 0; 0; 1; 1; 1; 1] [AtTest; AtTest]
         (start (globals_of dev_world)))
  = [Returned (Some (sample_client 0)); Returned (Some (sample_client 0))] /\
  constructed
    (trace (snd (interleave dev_world [0; 0; 0; 0; 1; 1; 1; 1] [AtTest; AtTest]
                   (start (globals_of dev_world)))))
  = [sample_client 0].
Proof. split; vm_compute; reflexivity. Qed.

(** C10: when the slot is empty and client construction raises, the call to
    [get_bigquery_client_instance] raises the same error and leaves the slot
    empty; the next call runs the construction again and returns (and
    memoizes) its client if it now succeeds, or raises its error if it fails
    again. *)
Theorem failed_construction_is_not_memoized (w : World) (st st1 : state Globals)
  (e : exn) :
  _bigquery_client (globals st) = None ->
  get_bigquery_client w st = (Raise e, st1) ->
  get_bigquery_client_instance w st = (Raise e, st1) /\
  _bigquery_client (globals st1) = None /\
  get_bigquery_client_instance w st1 =
  match get_bigquery_client w st1 with
  | (Ret c, st2) =>
      (Ret c, mkState (mkGlobals (settings (globals st2)) (Some c)) (trace st2))
  | (Raise e2, st2) => (Raise e2, st2)
  end.
Proof.
  intros Hslot Hfail.
  assert (Hslot1 : _bigquery_client (globals st1) = None).
  { destruct (get_bigquery_client_trace w st) as (new & Hst & _).
    rewrite Hfail in Hst. cbn in Hst. subst st1. exact Hslot. }
  repeat split.
  - rewrite get_bigquery_client_instance_eq, Hslot, Hfail. reflexivity.
  - exact Hslot1.
  - rewrite get_bigquery_client_instance_eq, Hslot1. reflexivity.
Qed.

Lemma creation_calls_In (l : list event) (c : Client) (d : Dataset) (z : Z)
  (r : res Dataset) :
  In (EvCreateDataset c d z r) l -> creation_calls l <> [].
Proof.
  induction l as [|x l IH]; cbn; [tauto|].
  intros [->|H]; cbn; [discriminate|].
  destruct x; cbn; try discriminate; auto.
Qed.

(** C1: [ensure_dataset_exists] returns normally in every world and from
    every state, whatever the collaborators answer.  It prints at most one
    line, either the creation notice or a warning; when the client cannot be
    obtained, all it does after the failed attempt is print the warning with
    that error, and when the creation call fails, the warning with that error
    is the one line printed. *)
Theorem ensure_dataset_exists_never_raises (w : World) (st : state Globals) :
  exists (st' : state Globals) (new : list event),
    ensure_dataset_exists w st = (Ret tt, st') /\
    trace st' = trace st ++ new /\
    (printed new = [] \/
     printed new = [created_line (qualified_dataset_id w (settings (globals st)))] \/
     exists e : exn, printed new = [warning_line e]) /\
    (forall (e : exn) (st1 : state Globals),
        get_bigquery_client_instance w st = (Raise e, st1) ->
        st' = log (EvPrint (warning_line e)) st1) /\
    (forall (c : Client) (d : Dataset) (z : Z) (e : exn),
        In (EvCreateDataset c d z (Raise e)) new ->
        printed new = [warning_line e]).
Proof.
  destruct (get_bigquery_client_instance_trace w st)
    as (new0 & Ht & Hs & Hd & Hf & Hp & _).
  rewrite ensure_dataset_exists_eq.
  destruct (get_bigquery_client_instance w st) as [[c|e] st1]; cbn in Ht, Hs.
  - cbn zeta. rewrite Hs.
    destruct (sdk_get_dataset w (trace st1) c _) as [d|e1] eqn:Hget.
    + eexists _, (new0 ++ [_]). split; [reflexivity|]. cbn. rewrite Ht.
      unfold printed in *. rewrite omap_app, Hp. cbn.
      repeat split.
      * symmetry; apply app_assoc.
      * auto.
      * intros; discriminate.
      * intros c' d' z e Hin. apply in_app_or in Hin as [Hin|Hin].
        -- apply creation_calls_In in Hin. contradiction.
        -- cbn in Hin. destruct Hin as [Hin|[]]. discriminate.
    + destruct (dataset_id_error w _) as [e0|] eqn:Hid;
        [|destruct (sdk_create_dataset w _ c _ 30) as [d|e] eqn:Hcreate].
      * eexists _, (new0 ++ [_; _]). split; [reflexivity|]. cbn. rewrite Ht.
        unfold printed in *. rewrite omap_app, Hp. cbn.
        repeat split.
        -- rewrite <- !app_assoc. reflexivity.
        -- eauto.
        -- intros; discriminate.
        -- intros c' d' z e Hin. apply in_app_or in Hin as [Hin|Hin].
           ++ apply creation_calls_In in Hin. contradiction.
           ++ cbn in Hin. destruct Hin as [Hin|[Hin|[]]]; discriminate.
      * eexists _, (new0 ++ [_; _; _]). split; [reflexivity|]. cbn. rewrite Ht.
        unfold printed in *. rewrite omap_app, Hp. cbn.
        repeat split.
        -- rewrite <- !app_assoc. reflexivity.
        -- auto.
        -- intros; discriminate.
        -- intros c' d' z e Hin. apply in_app_or in Hin as [Hin|Hin].
           ++ apply creation_calls_In in Hin. contradiction.
           ++ cbn in Hin. destruct Hin as [Hin|[Hin|[Hin|[]]]]; discriminate.
      * eexists _, (new0 ++ [_; _; _]). split; [reflexivity|]. cbn. rewrite Ht.
        unfold printed in *. rewrite omap_app, Hp. cbn.
        repeat split.
        -- rewrite <- !app_assoc. reflexivity.
        -- eauto.
        -- intros; discriminate.
        -- intros c' d' z e' Hin. apply in_app_or in Hin as [Hin|Hin].
           ++ apply creation_calls_In in Hin. contradiction.
           ++ cbn in Hin. destruct Hin as [Hin|[Hin|[Hin|[]]]]; try discriminate.
              injection Hin as _ _ _ ->. reflexivity.
  - eexists _, (new0 ++ [_]). split; [reflexivity|]. cbn. rewrite Ht.
    unfold printed in *. rewrite omap_app, Hp. cbn.
    repeat split.
    + symmetry; apply app_assoc.
    + eauto.
    + intros e' st1' [= <- <-]. reflexivity.
    + intros c' d' z e' Hin. apply in_app_or in Hin as [Hin|Hin].
      * apply creation_calls_In in Hin. contradiction.
      * cbn in Hin. destruct Hin as [Hin|[]]. discriminate.
Qed.

(** Each failure mode, forced in a sample world: what is printed. *)
Example ensure_prints_warning_on_client_failure :
  ensure_dataset_exists flaky_world (start (globals_of flaky_world)) =
  (Ret tt,
   mkState (globals_of flaky_world)
     [EvClient (PStr "celestial-gecko-449316-d2") None "US" (Raise unreachable);
      EvPrint "Warning: Could not initialize BigQuery: connection refused"]).
Proof. vm_compute. reflexivity. Qed.

Example ensure_prints_warning_without_key_file :
  printed (trace (snd (ensure_dataset_exists local_nokey_world
                         (start (globals_of local_nokey_world)))))
  = ["Warning: Could not initialize BigQuery: key.json not found for local environment"].
Proof. vm_compute. reflexivity. Qed.

Example ensure_prints_notice_on_creation :
  printed (trace (snd (ensure_dataset_exists missing_dataset_world
                         (start (globals_of missing_dataset_world)))))
  = ["Created dataset celestial-gecko-449316-d2.template_dataset"].
Proof. vm_compute. reflexivity. Qed.

Example ensure_prints_warning_on_creation_failure :
  printed (trace (snd (ensure_dataset_exists broken_service_world
                         (start (globals_of broken_service_world)))))
  = ["Warning: Could not initialize BigQuery: 403 Quota exceeded"].
Proof. vm_compute. reflexivity. Qed.

Example ensure_prints_nothing_when_dataset_exists :
  printed (trace (snd (ensure_dataset_exists dev_world (start (globals_of dev_world)))))
  = [].
Proof. vm_compute. reflexivity. Qed.

(** C4, as the code has it: in a call to [ensure_dataset_exists] in which the
    client is obtained, exactly one fetch is issued, for the id
    [<project>.<dataset>]; when the fetch returns, no creation call is issued;
    when it raises, whatever the error, and the descriptor constructor accepts
    the id, exactly one creation call is issued, on the same client, for that
    id with the configured location and the fixed description, and with
    timeout 30; when it raises and the constructor rejects the id, no creation
    call is issued and the warning with the constructor's error is printed. *)
Theorem ensure_dataset_exists_fetch_or_create (w : World)
  (st st1 : state Globals) (c : Client) :
  get_bigquery_client_instance w st = (Ret c, st1) ->
  let s := settings (globals st) in
  let st' := snd (ensure_dataset_exists w st) in
  fetch_calls (trace st') =
  fetch_calls (trace st)
  ++ [(c, (format_value w (GOOGLE_CLOUD_PROJECT s) ++ "."
           ++ BIGQUERY_DATASET s)%string)] /\
  match sdk_get_dataset w (trace st1) c (qualified_dataset_id w s) with
  | Ret _ => creation_calls (trace st') = creation_calls (trace st)
  | Raise _ =>
      match dataset_id_error w (qualified_dataset_id w s) with
      | None =>
          creation_calls (trace st') =
          creation_calls (trace st)
          ++ [(c,
               {| dataset_id := qualified_dataset_id w s;
                  location := Some (BIGQUERY_LOCATION s);
                  description := Some "Template microservice dataset" |},
               30%Z)]
      | Some e =>
          creation_calls (trace st') = creation_calls (trace st) /\
          printed (trace st') = printed (trace st) ++ [warning_line e]
      end
  end.
Proof.
  intros Hcall s st'. subst st'.
  destruct (get_bigquery_client_instance_trace w st)
    as (new0 & Ht & Hs & Hd & Hf & Hp & _).
  rewrite ensure_dataset_exists_eq.
  rewrite Hcall in *. cbn in Ht, Hs. cbn zeta. rewrite Hs. fold s.
  change (format_value w (GOOGLE_CLOUD_PROJECT s) ++ "." ++ BIGQUERY_DATASET s)%string
    with (qualified_dataset_id w s).
  unfold fetch_calls, creation_calls, printed in *.
  destruct (sdk_get_dataset w (trace st1) c _) as [d|e1]; cbn.
  - rewrite Ht, !omap_app, Hd, Hf. cbn. rewrite !app_nil_r. auto.
  - destruct (dataset_id_error w _) as [e0|];
      [|destruct (sdk_create_dataset w _ c _ 30) as [d|e]]; cbn;
      rewrite Ht, !omap_app, Hd, Hf, ?Hp; cbn; rewrite ?app_nil_r; auto.
Qed.

(** C4 as stated fails: with a dot in [BIGQUERY_DATASET] the qualified id has
    three parts; the client is obtained, the fetch raises, the descriptor
    constructor raises too, and the call ends with the warning printed and no
    creation call issued. *)
Lemma no_creation_call_for_rejected_id :
  get_bigquery_client_instance dotted_dataset_world
    (start (globals_of dotted_dataset_world))
  = (Ret (sample_client 0),
     snd (get_bigquery_client_instance dotted_dataset_world
            (start (globals_of dotted_dataset_world)))) /\
  fetch_calls
    (trace (snd (ensure_dataset_exists dotted_dataset_world
                   (start (globals_of dotted_dataset_world)))))
  = [(sample_client 0, "celestial-gecko-449316-d2.analytics.v2")] /\
  sdk_get_dataset dotted_dataset_world
    [EvClient (PStr "celestial-gecko-449316-d2") None "US" (Ret (sample_client 0))]
    (sample_client 0) "celestial-gecko-449316-d2.analytics.v2"
  = Raise too_many_parts /\
  creation_calls
    (trace (snd (ensure_dataset_exists dotted_dataset_world
                   (start (globals_of dotted_dataset_world)))))
  = [] /\
  printed
    (trace (snd (ensure_dataset_exists dotted_dataset_world
                   (start (globals_of dotted_dataset_world)))))
  = ["Warning: Could not initialize BigQuery: Too many parts in dataset_id"].
Proof. repeat split; vm_compute; reflexivity. Qed.

(** ** The two project-id fields *)

(** What [Settings.__init__] can do to the project ids: leave both, or give
    both the same new value. *)
Lemma Settings_init_project_ids (w : World) (kwargs : Source) {G}
  (st st' : state G) (s0 s : Settings) :
  BaseSettings_init w kwargs = Ret s0 ->
  Settings_init w kwargs st = (Ret s, st') ->
  (GOOGLE_CLOUD_PROJECT s = GOOGLE_CLOUD_PROJECT s0 /\ PROJECT_ID s = PROJECT_ID s0)
  \/ GOOGLE_CLOUD_PROJECT s = PROJECT_ID s.
Proof.
  intros Hbase. unfold Settings_init. unfold_m. rewrite Hbase.
  destruct (is_local s0); [|intros [= <- _]; auto].
  destruct (path_exists w (trace st) (key_path s0)); [|intros [= <- _]; auto].
  unfold call. cbn zeta.
  destruct (read_text w _ (key_path s0)) as [text|e]; [|discriminate].
  destruct (json_loads w text) as [v|e]; [|discriminate].
  destruct v; cbn; try discriminate.
  destruct (d !! "project_id"); intros [= <- _]; cbn; auto.
Qed.

Lemma settings_preserved (w : World) (st : state Globals) :
  settings (globals (snd (get_google_credentials w st))) = settings (globals st) /\
  settings (globals (snd (get_bigquery_client w st))) = settings (globals st) /\
  settings (globals (snd (get_bigquery_client_instance w st))) = settings (globals st) /\
  settings (globals (snd (ensure_dataset_exists w st))) = settings (globals st).
Proof.
  destruct (get_google_credentials_trace w st) as (n1 & -> & _).
  destruct (get_bigquery_client_trace w st) as (n2 & -> & _).
  destruct (get_bigquery_client_instance_trace w st) as (n3 & _ & Hs & _).
  destruct (ensure_dataset_exists_after_instance w st) as (n4 & -> & _).
  cbn. auto.
Qed.

(** C3, as the code has it: after [Settings.__init__] the two project-id
    fields are equal when the sources and defaults gave them equal values, in
    particular when no source provides either, and when the environment is
    local and the key file is an object with a [project_id]; and no function
    of the module changes the settings afterwards. *)
Theorem project_ids_agree_when_sources_agree (w : World) :
  (forall (kwargs : Source) (G : Type) (st st' : state G) (s0 s : Settings),
      BaseSettings_init w kwargs = Ret s0 ->
      Settings_init w kwargs st = (Ret s, st') ->
      GOOGLE_CLOUD_PROJECT s0 = PROJECT_ID s0 ->
      GOOGLE_CLOUD_PROJECT s = PROJECT_ID s) /\
  (forall (kwargs : Source) (s0 : Settings),
      BaseSettings_init w kwargs = Ret s0 ->
      src_GOOGLE_CLOUD_PROJECT kwargs = None ->
      src_GOOGLE_CLOUD_PROJECT (environ w) = None ->
      src_GOOGLE_CLOUD_PROJECT (dotenv w) = None ->
      src_PROJECT_ID kwargs = None ->
      src_PROJECT_ID (environ w) = None ->
      src_PROJECT_ID (dotenv w) = None ->
      GOOGLE_CLOUD_PROJECT s0 = PROJECT_ID s0) /\
  (forall (kwargs : Source) (G : Type) (st : state G) (s0 : Settings)
          (text : string) (d : gmap string pyval) (v : pyval),
      BaseSettings_init w kwargs = Ret s0 ->
      lower (ENVIRONMENT s0) = "local" ->
      path_exists w (trace st) (key_path s0) = true ->
      read_text w (trace (log (EvExists (key_path s0) true) st)) (key_path s0)
      = Ret text ->
      json_loads w text = Ret (PDict d) ->
      d !! "project_id" = Some v ->
      exists (s : Settings) (st' : state G),
        Settings_init w kwargs st = (Ret s, st') /\
        GOOGLE_CLOUD_PROJECT s = v /\ PROJECT_ID s = v) /\
  (forall st : state Globals,
      settings (globals (snd (get_google_credentials w st))) = settings (globals st) /\
      settings (globals (snd (get_bigquery_client w st))) = settings (globals st) /\
      settings (globals (snd (get_bigquery_client_instance w st)))
      = settings (globals st) /\
      settings (globals (snd (ensure_dataset_exists w st))) = settings (globals st)).
Proof.
  split; [|split; [|split]].
  - intros kwargs G st st' s0 s Hbase Hinit Heq.
    destruct (Settings_init_project_ids w kwargs st st' s0 s Hbase Hinit)
      as [[H1 H2]|H]; congruence.
  - intros kwargs s0 Hbase K1 K2 K3 K4 K5 K6.
    unfold BaseSettings_init in Hbase.
    destruct (validation_error w); [discriminate|].
    injection Hbase as <-. cbn. rewrite K1, K2, K3, K4, K5, K6. reflexivity.
  - intros kwargs G st s0 text d v Hbase Hloc Hex Hread Hjson Hv.
    apply is_local_true in Hloc.
    rewrite (Settings_init_key_data w kwargs st s0 text Hbase Hloc Hex Hread).
    unfold_m. rewrite Hjson. cbn. rewrite Hv.
    eexists _, _. split; [reflexivity|]. cbn. auto.
  - apply settings_preserved.
Qed.

(** C3 as stated fails: with [GOOGLE_CLOUD_PROJECT] set in the process
    environment and [PROJECT_ID] left to its default, construction succeeds
    and the two fields differ. *)
Lemma project_ids_differ_under_override :
  exists s : Settings,
    Settings_init override_world no_source (start tt) = (Ret s, start tt) /\
    GOOGLE_CLOUD_PROJECT s = PStr "other-project" /\
    PROJECT_ID s = PStr "celestial-gecko-449316-d2" /\
    GOOGLE_CLOUD_PROJECT s <> PROJECT_ID s.
Proof.
  eexists. split; [vm_compute; reflexivity|].
  cbn. repeat split. discriminate.
Qed.

(** ** The theorems at work on the sample worlds *)

Lemma Settings_init_local_without_key_file_witness :
  Settings_init local_nokey_world no_source (start tt) =
  (Ret (base_of local_nokey_world),
   mkState tt [EvExists ["/"; "srv"; "app"; "key.json"] false]) /\
  GOOGLE_CLOUD_PROJECT (base_of local_nokey_world) = PStr "celestial-gecko-449316-d2".
Proof.
  split; [|reflexivity].
  apply (Settings_init_local_without_key_file local_nokey_world no_source unit
           (start tt) (base_of local_nokey_world)); reflexivity.
Defined.

Lemma Settings_init_local_key_file_witness :
  exists (s : Settings) (st' : state unit),
    Settings_init local_key_world no_source (start tt) = (Ret s, st') /\
    GOOGLE_CLOUD_PROJECT s = PStr "X" /\ PROJECT_ID s = PStr "X".
Proof.
  destruct (Settings_init_local_key_file local_key_world no_source unit
              (start tt) (base_of local_key_world) "{...}"
              {[ "project_id" := PStr "X" ]}
              eq_refl eq_refl eq_refl eq_refl eq_refl)
    as (s & st' & Hinit & Hset & _).
  exists s, st'. split; [exact Hinit|].
  apply Hset. vm_compute. reflexivity.
Defined.

Lemma Settings_init_malformed_key_file_witness :
  fst (Settings_init local_malformed_world no_source (start tt)) = Raise json_error /\
  fst (import_module local_malformed_world (start tt)) = Raise json_error.
Proof.
  destruct (Settings_init_malformed_key_file local_malformed_world no_source
              (start tt) (base_of local_malformed_world) "{...}" json_error
              eq_refl eq_refl eq_refl eq_refl eq_refl)
    as [H1 H2].
  split; [exact H1|exact (H2 eq_refl)].
Defined.

Lemma nonlocal_never_consults_key_file_witness :
  lower "Locale" <> "local" /\
  Settings_init dev_world (env_only "Locale") (start tt)
  = (Ret (mkSettings "/api/v1" ["/"; "srv"; "app"] [PStr "*"] "Locale"
            "default_api_key" (PStr "celestial-gecko-449316-d2")
            "template_dataset" "US" (PStr "celestial-gecko-449316-d2")),
     start tt) /\
  lower "development" <> "local" /\
  get_google_credentials dev_world (start (globals_of dev_world))
  = (Ret None, start (globals_of dev_world)).
Proof.
  assert (Hname : lower "Locale" <> "local") by discriminate.
  assert (Hdev : lower "development" <> "local") by discriminate.
  split; [exact Hname|]. split; [|split; [exact Hdev|]].
  - apply (proj1 (nonlocal_never_consults_key_file dev_world "Locale" Hname)
             unit (env_only "Locale")); reflexivity.
  - apply (proj2 (nonlocal_never_consults_key_file dev_world "development" Hdev)).
    reflexivity.
Defined.

Lemma get_google_credentials_local_without_key_file_witness :
  get_google_credentials local_nokey_world (start (globals_of local_nokey_world))
  = (Raise (FileNotFoundError "key.json not found for local environment"),
     mkState (globals_of local_nokey_world)
       [EvExists ["/"; "srv"; "app"; "key.json"] false]).
Proof.
  apply (get_google_credentials_local_without_key_file local_nokey_world
           (start (globals_of local_nokey_world))); reflexivity.
Defined.


Lemma failed_construction_is_not_memoized_witness :
  get_bigquery_client_instance flaky_world (start (globals_of flaky_world))
  = (Raise unreachable,
     mkState (globals_of flaky_world)
       [EvClient (PStr "celestial-gecko-449316-d2") None "US" (Raise unreachable)]) /\
  fst (get_bigquery_client_instance flaky_world
         (snd (get_bigquery_client_instance flaky_world
                 (start (globals_of flaky_world)))))
  = Ret (sample_client 1).
Proof.
  destruct (failed_construction_is_not_memoized flaky_world
              (start (globals_of flaky_world))
              (mkState (globals_of flaky_world)
                 [EvClient (PStr "celestial-gecko-449316-d2") None "US"
                    (Raise unreachable)])
              unreachable eq_refl eq_refl)
    as (Hfirst & _ & Hnext).
  split; [exact Hfirst|].
  rewrite Hfirst. cbn [snd]. rewrite Hnext. vm_compute. reflexivity.
Defined.

Lemma ensure_dataset_exists_fetch_or_create_witness :
  creation_calls
    (trace (snd (ensure_dataset_exists missing_dataset_world
                   (start (globals_of missing_dataset_world)))))
  = [(sample_client 0,
      mkDataset "celestial-gecko-449316-d2.template_dataset" (Some "US")
        (Some "Template microservice dataset"),
      30%Z)] /\
  creation_calls
    (trace (snd (ensure_dataset_exists dev_world (start (globals_of dev_world)))))
  = [].
Proof.
  split.
  - apply (proj2 (ensure_dataset_exists_fetch_or_create missing_dataset_world
                    (start (globals_of missing_dataset_world))
                    (snd (get_bigquery_client_instance missing_dataset_world
                            (start (globals_of missing_dataset_world))))
                    (sample_client 0) eq_refl)).
  - apply (proj2 (ensure_dataset_exists_fetch_or_create dev_world
                    (start (globals_of dev_world))
                    (snd (get_bigquery_client_instance dev_world
                            (start (globals_of dev_world))))
                    (sample_client 0) eq_refl)).
Defined.

(** * Further properties of the module *)

(** ** [Settings.__init__] *)

(** X1: apart from the two project ids, [Settings.__init__] returns every
    field as the base initialisation populated it; in particular the key file
    path and the local test are the same before and after, so that
    [get_google_credentials] looks at the file [__init__] looked at. *)
Theorem Settings_init_changes_only_project_ids (w : World) (kwargs : Source)
  (G : Type) (st st' : state G) (s0 s : Settings) :
  BaseSettings_init w kwargs = Ret s0 ->
  Settings_init w kwargs st = (Ret s, st') ->
  API_V1 s = API_V1 s0 /\
  PROJECT_DIR s = PROJECT_DIR s0 /\
  BACKEND_CORS_ORIGINS s = BACKEND_CORS_ORIGINS s0 /\
  ENVIRONMENT s = ENVIRONMENT s0 /\
  LOCAL_API_KEY s = LOCAL_API_KEY s0 /\
  BIGQUERY_DATASET s = BIGQUERY_DATASET s0 /\
  BIGQUERY_LOCATION s = BIGQUERY_LOCATION s0 /\
  key_path s = key_path s0 /\
  is_local s = is_local s0.
Proof.
  intros Hbase. unfold Settings_init. unfold_m. rewrite Hbase.
  destruct (is_local s0) eqn:Hloc; [|intros [= <- _]; auto 10].
  destruct (path_exists w (trace st) (key_path s0)); [|intros [= <- _]; auto 10].
  unfold call. cbn zeta.
  destruct (read_text w _ (key_path s0)) as [text|e]; [|discriminate].
  destruct (json_loads w text) as [v|e]; [|discriminate].
  destruct v; cbn; try discriminate.
  intros [= <- _]. cbn. unfold key_path, is_local in *. cbn. auto 10.
Qed.

(** X2: the calls [Settings.__init__] makes.  None when the base
    initialisation raises or the environment is not local; otherwise one
    existence test of [PROJECT_DIR / "key.json"], followed by one read of
    that same path exactly when the test answered yes.  It never calls the
    SDK and never prints. *)
Theorem Settings_init_footprint (w : World) (kwargs : Source) (G : Type)
  (st : state G) :
  exists new : list event,
    snd (Settings_init w kwargs st) = mkState (globals st) (trace st ++ new) /\
    match BaseSettings_init w kwargs with
    | Raise e => new = [] /\ fst (Settings_init w kwargs st) = Raise e
    | Ret s0 =>
        if is_local s0
        then new = [EvExists (key_path s0) false] \/
             exists r : res string,
               new = [EvExists (key_path s0) true; EvRead (key_path s0) r]
        else new = []
    end.
Proof.
  destruct st as [g t].
  unfold Settings_init. unfold_m. unfold dict_get.
  destruct (BaseSettings_init w kwargs) as [s0|e]; cbn.
  - destruct (is_local s0); cbn.
    + destruct (path_exists w t (key_path s0)); cbn.
      * unfold call. cbn.
        destruct (read_text w _ (key_path s0)) as [text|e] eqn:Hread; cbn;
          [ destruct (json_loads w text) as [[]|e]; cbn | ];
          unfold log; cbn;
          (eexists; split; [ f_equal; ext_trace | right; eexists; reflexivity ]).
      * unfold log; cbn. eexists; split; [ f_equal; ext_trace | left; reflexivity ].
    + exists []. rewrite app_nil_r. auto.
  - exists []. rewrite app_nil_r. auto.
Qed.

(** X3: in the local environment, when [key.json] parses to a JSON value
    that is not an object, construction raises the [AttributeError] of the
    missing [get] method, naming the type of the value. *)
Theorem Settings_init_non_object_key_file (w : World) (kwargs : Source)
  (G : Type) (st : state G) (s0 : Settings) (text : string) (v : pyval) :
  BaseSettings_init w kwargs = Ret s0 ->
  lower (ENVIRONMENT s0) = "local" ->
  path_exists w (trace st) (key_path s0) = true ->
  read_text w (trace (log (EvExists (key_path s0) true) st)) (key_path s0)
  = Ret text ->
  json_loads w text = Ret v ->
  type_name v <> "dict" ->
  Settings_init w kwargs st =
  (Raise (AttributeError ("'" ++ type_name v ++ "' object has no attribute 'get'")),
   log (EvRead (key_path s0) (Ret text)) (log (EvExists (key_path s0) true) st)).
Proof.
  intros Hbase Hloc Hex Hread Hjson Hty. apply is_local_true in Hloc.
  rewrite (Settings_init_key_data w kwargs st s0 text Hbase Hloc Hex Hread).
  unfold_m. rewrite Hjson.
  destruct v; cbn; try reflexivity. cbn in Hty. congruence.
Qed.

(** X4: in the local environment, when [key.json] exists and opening or
    reading it raises, construction raises that error. *)
Theorem Settings_init_unreadable_key_file (w : World) (kwargs : Source)
  (G : Type) (st : state G) (s0 : Settings) (e : exn) :
  BaseSettings_init w kwargs = Ret s0 ->
  lower (ENVIRONMENT s0) = "local" ->
  path_exists w (trace st) (key_path s0) = true ->
  read_text w (trace (log (EvExists (key_path s0) true) st)) (key_path s0)
  = Raise e ->
  Settings_init w kwargs st =
  (Raise e,
   log (EvRead (key_path s0) (Raise e)) (log (EvExists (key_path s0) true) st)).
Proof.
  intros Hbase Hloc Hex Hread. apply is_local_true in Hloc.
  unfold Settings_init. unfold_m.
  rewrite Hbase, Hloc, Hex. unfold call. cbn zeta. rewrite Hread. reflexivity.
Qed.

(** ** [get_bigquery_client] *)

(** X5: outside the local environment [get_bigquery_client] makes exactly one
    call, the client constructor with the configured project and location and
    without explicit credentials; it returns the new client or raises the
    error of the constructor, and touches neither the file system nor the
    globals. *)
Theorem get_bigquery_client_nonlocal (w : World) (st : state Globals) :
  lower (ENVIRONMENT (settings (globals st))) <> "local" ->
  let s := settings (globals st) in
  let r :=
    match client_ctor w (trace st) (GOOGLE_CLOUD_PROJECT s) None (BIGQUERY_LOCATION s) with
    | None =>
        Ret (mkClient (length (trace st)) (GOOGLE_CLOUD_PROJECT s) None
               (BIGQUERY_LOCATION s))
    | Some e => Raise e
    end in
  get_bigquery_client w st =
  (r, log (EvClient (GOOGLE_CLOUD_PROJECT s) None (BIGQUERY_LOCATION s) r) st).
Proof.
  intros Hloc. cbv zeta. apply is_local_false in Hloc.
  unfold get_bigquery_client, get_google_credentials, Client_new.
  unfold_m. cbn. rewrite Hloc. unfold call. cbn. reflexivity.
Qed.

Lemma get_bigquery_client_client_for (w : World) (st st1 : state Globals)
  (c : Client) :
  get_bigquery_client w st = (Ret c, st1) ->
  client_for (settings (globals st)) c.
Proof.
  destruct st as [g t].
  unfold get_bigquery_client, get_google_credentials,
    Credentials_from_service_account_file, Client_new, client_for.
  unfold_m. cbn.
  destruct (is_local (settings g)) eqn:Hloc; cbn.
  - apply is_local_true in Hloc.
    destruct (path_exists w t (key_path (settings g))); cbn; [|discriminate].
    unfold call. cbn.
    destruct (from_service_account_file w _ _) as [cr|e]; cbn; [|discriminate].
    destruct (client_ctor w _ _ _ _); cbn; [discriminate|].
    intros [= <- <-]. cbn. repeat split; congruence.
  - apply is_local_false in Hloc. unfold call. cbn.
    destruct (client_ctor w _ _ _ _); cbn; [discriminate|].
    intros [= <- <-]. cbn. repeat split; auto; discriminate.
Qed.

(** X6: a client returned by [get_bigquery_client] is built for the current
    settings: their project and location, default credentials exactly when
    the environment is not local, and otherwise the credentials the SDK loaded
    from [str(PROJECT_DIR / "key.json")] during this call. *)
Theorem get_bigquery_client_configured (w : World) (st st1 : state Globals)
  (c : Client) :
  get_bigquery_client w st = (Ret c, st1) ->
  client_for (settings (globals st)) c /\
  (forall cr : Credentials,
      client_credentials c = Some cr ->
      exists new : list event,
        trace st1 = trace st ++ new /\
        In (EvCredentials (Path_str (key_path (settings (globals st)))) (Ret cr)) new).
Proof.
  intros Hcall. split; [exact (get_bigquery_client_client_for w st st1 c Hcall)|].
  revert Hcall. destruct st as [g t].
  unfold get_bigquery_client, get_google_credentials,
    Credentials_from_service_account_file, Client_new.
  unfold_m. cbn.
  destruct (is_local (settings g)); cbn.
  - destruct (path_exists w t (key_path (settings g))); cbn; [|discriminate].
    unfold call. cbn.
    destruct (from_service_account_file w _ _) as [cr|e]; cbn; [|discriminate].
    destruct (client_ctor w _ _ _ _); cbn; [discriminate|].
    intros [= <- <-]. cbn.
    intros cr' [= <-]. eexists. split.
    + rewrite <- !app_assoc. reflexivity.
    + cbn. auto.
  - unfold call. cbn.
    destruct (client_ctor w _ _ _ _); cbn; [discriminate|].
    intros [= <- <-]. cbn. discriminate.
Qed.

(** X9: in the local environment, when the key file exists and the SDK fails
    to load it, [get_bigquery_client] raises that error after the existence
    test and the load attempt, and never calls the client constructor. *)
Theorem get_bigquery_client_credentials_error (w : World) (st : state Globals)
  (e : exn) :
  let s := settings (globals st) in
  lower (ENVIRONMENT s) = "local" ->
  path_exists w (trace st) (key_path s) = true ->
  from_service_account_file w (trace (log (EvExists (key_path s) true) st))
    (Path_str (key_path s)) = Raise e ->
  get_bigquery_client w st =
  (Raise e,
   log (EvCredentials (Path_str (key_path s)) (Raise e))
     (log (EvExists (key_path s) true) st)).
Proof.
  cbv zeta. intros Hloc Hex Hload. apply is_local_true in Hloc.
  unfold get_bigquery_client, get_google_credentials,
    Credentials_from_service_account_file.
  unfold_m. cbn. rewrite Hloc, Hex. unfold call. cbn zeta.
  rewrite Hload. reflexivity.
Qed.

(** The history only grows along a run. *)
Lemma run_op_trace (w : World) (o : op) (st : state Globals) :
  exists new : list event, trace (run_op w o st) = trace st ++ new.
Proof.
  destruct o; unfold run_op.
  - destruct (get_google_credentials_trace w st) as (new & -> & _). eauto.
  - destruct (get_bigquery_client_instance_trace w st) as (new & -> & _). eauto.
  - destruct (ensure_dataset_exists_after_instance w st) as (tail & -> & _).
    destruct (get_bigquery_client_instance_trace w st) as (new & -> & _).
    cbn. rewrite <- app_assoc. eauto.
Qed.

Lemma run_trace (w : World) (ops : list op) (st : state Globals) :
  exists new : list event, trace (run w ops st) = trace st ++ new.
Proof.
  revert st. induction ops as [|o ops IH]; intros st.
  - exists []. symmetry. apply app_nil_r.
  - change (run w (o :: ops) st) with (run w ops (run_op w o st)).
    destruct (IH (run_op w o st)) as (n2 & ->).
    destruct (run_op_trace w o st) as (n1 & ->).
    rewrite <- app_assoc. eauto.
Qed.

(** X7: [get_bigquery_client] does not memoize: two calls that both return,
    whatever the lifecycle manager is asked in between, return two different
    objects. *)
Theorem get_bigquery_client_always_new (w : World) (st st1 st2 : state Globals)
  (ops : list op) (c1 c2 : Client) :
  get_bigquery_client w st = (Ret c1, st1) ->
  get_bigquery_client w (run w ops st1) = (Ret c2, st2) ->
  client_oid c1 <> client_oid c2.
Proof.
  intros H1 H2.
  apply get_bigquery_client_fresh in H1, H2.
  destruct (run_trace w ops st1) as (new & Hnew).
  rewrite Hnew, length_app in H2. lia.
Qed.

(** ** The lifecycle manager in the local environment *)

(** X8: in the local environment with no key file and an empty slot, neither
    [get_bigquery_client_instance] nor [ensure_dataset_exists] reaches the
    SDK: the only call is the existence test; the former raises
    [FileNotFoundError] and leaves the slot empty, the latter prints the
    warning with that message and returns. *)
Theorem local_without_key_file_reaches_no_service (w : World)
  (st : state Globals) :
  let s := settings (globals st) in
  lower (ENVIRONMENT s) = "local" ->
  path_exists w (trace st) (key_path s) = false ->
  _bigquery_client (globals st) = None ->
  get_bigquery_client_instance w st =
  (Raise (FileNotFoundError "key.json not found for local environment"),
   log (EvExists (key_path s) false) st) /\
  ensure_dataset_exists w st =
  (Ret tt,
   log (EvPrint
          "Warning: Could not initialize BigQuery: key.json not found for local environment")
     (log (EvExists (key_path s) false) st)).
Proof.
  cbv zeta. intros Hloc Hex Hslot. apply is_local_true in Hloc.
  assert (Hinst : get_bigquery_client_instance w st =
                  (Raise (FileNotFoundError "key.json not found for local environment"),
                   log (EvExists (key_path (settings (globals st))) false) st)).
  { rewrite get_bigquery_client_instance_eq, Hslot.
    unfold get_bigquery_client, get_google_credentials. unfold_m. cbn.
    rewrite Hloc, Hex. reflexivity. }
  split; [exact Hinst|].
  rewrite ensure_dataset_exists_eq, Hinst. reflexivity.
Qed.

(** ** Invariants of a process *)

Lemma settings_run_op (w : World) (o : op) (st : state Globals) :
  settings (globals (run_op w o st)) = settings (globals st).
Proof.
  destruct (settings_preserved w st) as (H1 & _ & H3 & H4).
  destruct o; assumption.
Qed.

Lemma settings_run (w : World) (ops : list op) (st : state Globals) :
  settings (globals (run w ops st)) = settings (globals st).
Proof.
  revert st. induction ops as [|o ops IH]; intros st; [reflexivity|].
  change (run w (o :: ops) st) with (run w ops (run_op w o st)).
  rewrite IH. apply settings_run_op.
Qed.

(** X11: along any sequence of calls the settings are never modified, the
    history is only extended, and a filled slot is never emptied or
    refilled. *)
Theorem run_preserves_settings_and_slot (w : World) (ops : list op)
  (st : state Globals) :
  settings (globals (run w ops st)) = settings (globals st) /\
  (exists new : list event, trace (run w ops st) = trace st ++ new) /\
  (forall c : Client,
      _bigquery_client (globals st) = Some c ->
      _bigquery_client (globals (run w ops st)) = Some c).
Proof.
  split; [|split].
  - apply settings_run.
  - apply run_trace.
  - intros c. apply slot_stable_run.
Qed.

(** X13: [ensure_dataset_exists] leaves the slot as its call to
    [get_bigquery_client_instance] left it: a client that was obtained stays
    memoized even when the fetch and the creation both fail, and a failed
    construction leaves the slot empty for the next call to try again. *)
Theorem ensure_dataset_exists_slot (w : World) (st : state Globals) :
  _bigquery_client (globals (snd (ensure_dataset_exists w st))) =
  match fst (get_bigquery_client_instance w st) with
  | Ret c => Some c
  | Raise _ => None
  end.
Proof.
  destruct (ensure_dataset_exists_after_instance w st) as (tail & -> & _).
  destruct (get_bigquery_client_instance_trace w st)
    as (new & _ & _ & _ & _ & _ & Hcase).
  cbn [snd globals].
  destruct (fst (get_bigquery_client_instance w st)) as [c|e];
    destruct (_bigquery_client (globals st)); tauto.
Qed.

Lemma slot_inv_instance (w : World) (st : state Globals) :
  slot_inv st -> slot_inv (snd (get_bigquery_client_instance w st)).
Proof.
  unfold slot_inv. intros Hinv c.
  rewrite get_bigquery_client_instance_eq.
  destruct (_bigquery_client (globals st)) as [c0|] eqn:Hslot; cbn.
  - rewrite Hslot. apply Hinv.
  - destruct (get_bigquery_client_trace w st) as (new & Hst & _).
    destruct (get_bigquery_client w st) as [[c1|e] st1] eqn:Hcall;
      cbn in Hst; subst st1; cbn.
    + intros [= <-]. apply (get_bigquery_client_client_for w st _ c1 Hcall).
    + rewrite Hslot. discriminate.
Qed.

Lemma slot_inv_run_op (w : World) (o : op) (st : state Globals) :
  slot_inv st -> slot_inv (run_op w o st).
Proof.
  intros Hinv. destruct o; unfold run_op.
  - destruct (get_google_credentials_trace w st) as (new & -> & _). exact Hinv.
  - apply slot_inv_instance, Hinv.
  - destruct (ensure_dataset_exists_after_instance w st) as (tail & -> & _).
    exact (slot_inv_instance w st Hinv).
Qed.

Lemma slot_inv_run (w : World) (ops : list op) (st : state Globals) :
  slot_inv st -> slot_inv (run w ops st).
Proof.
  revert st. induction ops as [|o ops IH]; intros st Hinv; [exact Hinv|].
  change (run w (o :: ops) st) with (run w ops (run_op w o st)).
  apply IH, slot_inv_run_op, Hinv.
Qed.

(** X10: in a process that starts with the import of the module, whatever
    sequence of calls follows, a memoized client is one built for the settings
    of the process: their project and location, with default credentials
    exactly when the environment is not local. *)
Theorem memoized_client_matches_settings (w : World) (g : Globals)
  (st0 : state unit) (ops : list op) (c : Client) :
  import_module w (start tt) = (Ret g, st0) ->
  _bigquery_client (globals (run w ops (mkState g (trace st0)))) = Some c ->
  client_project c = GOOGLE_CLOUD_PROJECT (settings g) /\
  client_location c = BIGQUERY_LOCATION (settings g) /\
  (client_credentials c = None <-> lower (ENVIRONMENT (settings g)) <> "local").
Proof.
  intros Himp Hslot.
  assert (Hstart : slot_inv (mkState g (trace st0))).
  { unfold import_module, bind, ret in Himp.
    destruct (Settings_init w no_source (start tt)) as [[s|e] st1]; [|discriminate].
    injection Himp as <- <-. intros c0. cbn. discriminate. }
  pose proof (slot_inv_run w ops _ Hstart c Hslot) as Hfor.
  rewrite settings_run in Hfor. exact Hfor.
Qed.

(** ** Repeated and end-to-end use *)

(** X12: when a call to [ensure_dataset_exists] has obtained the client, a
    second call constructs no client and issues its fetch on that same
    client, for the same dataset id. *)
Theorem ensure_dataset_exists_twice (w : World) (st st1 : state Globals)
  (c : Client) :
  get_bigquery_client_instance w st = (Ret c, st1) ->
  let once := snd (ensure_dataset_exists w st) in
  let twice := snd (ensure_dataset_exists w once) in
  constructed (trace twice) = constructed (trace once) /\
  fetch_calls (trace twice) =
  fetch_calls (trace once) ++ [(c, qualified_dataset_id w (settings (globals st)))].
Proof.
  intros Hcall once twice.
  assert (Hslot : _bigquery_client (globals once) = Some c).
  { unfold once.
    destruct (ensure_dataset_exists_after_instance w st) as (tail & -> & _).
    rewrite Hcall. cbn.
    exact (get_bigquery_client_instance_fills_slot w st st1 c Hcall). }
  assert (Hset : settings (globals once) = settings (globals st))
    by apply (settings_preserved w st).
  pose proof (get_bigquery_client_instance_cached w once c Hslot) as Hcached.
  unfold twice. rewrite ensure_dataset_exists_eq, Hcached. cbn zeta.
  rewrite Hset. unfold constructed, fetch_calls.
  destruct (sdk_get_dataset w (trace once) c _) as [d|e1]; cbn.
  - rewrite !omap_app. cbn. rewrite app_nil_r. auto.
  - destruct (dataset_id_error w _) as [e0|];
      [|destruct (sdk_create_dataset w _ c _ 30) as [d|e]]; cbn;
      rewrite !omap_app; cbn; rewrite !app_nil_r; auto.
Qed.

(** X14: the project id of the key file is the one the service sees.  When
    the module is imported in the local environment with a key file whose
    [project_id] is the string [X], the import succeeds, the dataset id is
    [X.<dataset name>], and every client [get_bigquery_client] returns
    afterwards is built for project [X]. *)
Theorem key_file_project_reaches_the_service (w : World) (s0 : Settings)
  (text : string) (d : gmap string pyval) (X : string) :
  BaseSettings_init w no_source = Ret s0 ->
  lower (ENVIRONMENT s0) = "local" ->
  path_exists w [] (key_path s0) = true ->
  read_text w [EvExists (key_path s0) true] (key_path s0) = Ret text ->
  json_loads w text = Ret (PDict d) ->
  d !! "project_id" = Some (PStr X) ->
  exists (g : Globals) (st0 : state unit),
    import_module w (start tt) = (Ret g, st0) /\
    qualified_dataset_id w (settings g) = (X ++ "." ++ BIGQUERY_DATASET s0)%string /\
    (forall (st st1 : state Globals) (c : Client),
        settings (globals st) = settings g ->
        get_bigquery_client w st = (Ret c, st1) ->
        client_project c = PStr X).
Proof.
  intros Hbase Hloc Hex Hread Hjson HX. apply is_local_true in Hloc.
  unfold import_module, bind, ret.
  rewrite (Settings_init_key_data w no_source (start tt) s0 text Hbase Hloc Hex Hread).
  unfold_m. rewrite Hjson. cbn. rewrite HX.
  eexists _, _. split; [reflexivity|]. cbn. split; [reflexivity|].
  intros st st1 c Hg Hcall.
  destruct (get_bigquery_client_client_for w st st1 c Hcall) as (Hp & _).
  rewrite Hp, Hg. reflexivity.
Qed.

(** ** The further properties at work on the sample worlds *)

Lemma Settings_init_changes_only_project_ids_witness :
  GOOGLE_CLOUD_PROJECT
    (set_PROJECT_ID (PStr "X")
       (set_GOOGLE_CLOUD_PROJECT (PStr "X") (base_of local_key_world)))
  <> GOOGLE_CLOUD_PROJECT (base_of local_key_world) /\
  ENVIRONMENT
    (set_PROJECT_ID (PStr "X")
       (set_GOOGLE_CLOUD_PROJECT (PStr "X") (base_of local_key_world)))
  = ENVIRONMENT (base_of local_key_world).
Proof.
  split; [discriminate|].
  refine (proj1 (proj2 (proj2 (proj2
    (Settings_init_changes_only_project_ids local_key_world no_source unit
       (start tt)
       (snd (Settings_init local_key_world no_source (start tt)))
       (base_of local_key_world) _ _ _))))).
  - reflexivity.
  - vm_compute. reflexivity.
Defined.

Lemma Settings_init_non_object_key_file_witness :
  Settings_init local_array_world no_source (start tt) =
  (Raise (AttributeError "'list' object has no attribute 'get'"),
   mkState tt [EvExists ["/"; "srv"; "app"; "key.json"] true;
               EvRead ["/"; "srv"; "app"; "key.json"] (Ret "{...}")]).
Proof.
  apply (Settings_init_non_object_key_file local_array_world no_source unit
           (start tt) (base_of local_array_world) "{...}"
           (PList [PStr "project_id"]));
    try reflexivity.
  discriminate.
Defined.

Lemma Settings_init_unreadable_key_file_witness :
  Settings_init unreadable_key_world no_source (start tt) =
  (Raise permission_denied,
   mkState tt [EvExists ["/"; "srv"; "app"; "key.json"] true;
               EvRead ["/"; "srv"; "app"; "key.json"] (Raise permission_denied)]).
Proof.
  apply (Settings_init_unreadable_key_file unreadable_key_world no_source unit
           (start tt) (base_of unreadable_key_world) permission_denied);
    reflexivity.
Defined.

Lemma get_bigquery_client_nonlocal_witness :
  get_bigquery_client dev_world (start (globals_of dev_world)) =
  (Ret (sample_client 0),
   mkState (globals_of dev_world)
     [EvClient (PStr "celestial-gecko-449316-d2") None "US" (Ret (sample_client 0))]).
Proof.
  apply (get_bigquery_client_nonlocal dev_world (start (globals_of dev_world))).
  discriminate.
Defined.

Lemma get_bigquery_client_configured_witness :
  client_for (settings (globals_of local_key_world))
    (mkClient 2 (PStr "X") (Some (mkCredentials PNone)) "US").
Proof.
  refine (proj1 (get_bigquery_client_configured local_key_world
                   (start (globals_of local_key_world))
                   (snd (get_bigquery_client local_key_world
                           (start (globals_of local_key_world))))
                   (mkClient 2 (PStr "X") (Some (mkCredentials PNone)) "US") _)).
  vm_compute. reflexivity.
Defined.

Lemma get_bigquery_client_credentials_error_witness :
  get_bigquery_client bad_credentials_world
    (start (globals_of bad_credentials_world)) =
  (Raise bad_key,
   mkState (globals_of bad_credentials_world)
     [EvExists ["/"; "srv"; "app"; "key.json"] true;
      EvCredentials "/srv/app/key.json" (Raise bad_key)]).
Proof.
  apply (get_bigquery_client_credentials_error bad_credentials_world
           (start (globals_of bad_credentials_world)) bad_key);
    reflexivity.
Defined.

Lemma get_bigquery_client_always_new_witness :
  get_bigquery_client dev_world (start (globals_of dev_world)) =
  (Ret (sample_client 0),
   snd (get_bigquery_client dev_world (start (globals_of dev_world)))) /\
  client_oid (sample_client 0) <> client_oid (sample_client 3).
Proof.
  assert (H1 : get_bigquery_client dev_world (start (globals_of dev_world)) =
               (Ret (sample_client 0),
                snd (get_bigquery_client dev_world (start (globals_of dev_world)))))
    by (vm_compute; reflexivity).
  split; [exact H1|].
  refine (get_bigquery_client_always_new dev_world _ _
            (snd (get_bigquery_client dev_world
                    (run dev_world [OpEnsure]
                       (snd (get_bigquery_client dev_world
                               (start (globals_of dev_world)))))))
            [OpEnsure] (sample_client 0) (sample_client 3) H1 _).
  vm_compute. reflexivity.
Defined.

Lemma local_without_key_file_reaches_no_service_witness :
  ensure_dataset_exists local_nokey_world (start (globals_of local_nokey_world)) =
  (Ret tt,
   mkState (globals_of local_nokey_world)
     [EvExists ["/"; "srv"; "app"; "key.json"] false;
      EvPrint
        "Warning: Could not initialize BigQuery: key.json not found for local environment"]).
Proof.
  refine (proj2 (local_without_key_file_reaches_no_service local_nokey_world
                   (start (globals_of local_nokey_world)) _ _ _));
    reflexivity.
Defined.

Lemma memoized_client_matches_settings_witness :
  client_project (mkClient 4 (PStr "X") (Some (mkCredentials PNone)) "US")
  = GOOGLE_CLOUD_PROJECT (settings (globals_of local_key_world)) /\
  client_location (mkClient 4 (PStr "X") (Some (mkCredentials PNone)) "US")
  = BIGQUERY_LOCATION (settings (globals_of local_key_world)) /\
  (client_credentials (mkClient 4 (PStr "X") (Some (mkCredentials PNone)) "US")
   = None
   <-> lower (ENVIRONMENT (settings (globals_of local_key_world))) <> "local").
Proof.
  refine (memoized_client_matches_settings local_key_world
            (globals_of local_key_world)
            (snd (import_module local_key_world (start tt)))
            [OpEnsure; OpCredentials; OpInstance]
            (mkClient 4 (PStr "X") (Some (mkCredentials PNone)) "US") _ _);
    vm_compute; reflexivity.
Defined.

Lemma ensure_dataset_exists_twice_witness :
  constructed
    (trace (snd (ensure_dataset_exists dev_world
                   (snd (ensure_dataset_exists dev_world
                           (start (globals_of dev_world)))))))
  = [sample_client 0] /\
  fetch_calls
    (trace (snd (ensure_dataset_exists dev_world
                   (snd (ensure_dataset_exists dev_world
                           (start (globals_of dev_world)))))))
  = [(sample_client 0, "celestial-gecko-449316-d2.template_dataset");
     (sample_client 0, "celestial-gecko-449316-d2.template_dataset")].
Proof.
  refine (ensure_dataset_exists_twice dev_world (start (globals_of dev_world))
            (snd (get_bigquery_client_instance dev_world
                    (start (globals_of dev_world))))
            (sample_client 0) _).
  vm_compute. reflexivity.
Defined.

Lemma key_file_project_reaches_the_service_witness :
  exists (g : Globals) (st0 : state unit),
    import_module local_key_world (start tt) = (Ret g, st0) /\
    qualified_dataset_id local_key_world (settings g) = "X.template_dataset" /\
    (forall (st st1 : state Globals) (c : Client),
        settings (globals st) = settings g ->
        get_bigquery_client local_key_world st = (Ret c, st1) ->
        client_project c = PStr "X").
Proof.
  refine (key_file_project_reaches_the_service local_key_world
            (base_of local_key_world) "{...}" {[ "project_id" := PStr "X" ]} "X"
            _ _ _ _ _ _);
    vm_compute; reflexivity.
Defined.
